(** * mcp-api-tester: response normalisation and CSV projection

    A shallow embedding of [src/index.js]: the JavaScript values the
    server handles, the helpers [formatApiResponse], [formatErrorResponse],
    [escapeCsvValue], [convertArrayOfObjectsToCsv], [convertObjectToCsv],
    [generateMetadataRow], [toCsv], [buildContent], and the tool-call
    handler, followed by the properties of the specification.

    Modelling conventions.
    - A JavaScript value is a JSON tree ([value]), or a built-in function
      known by its name ([Native]); an object is the list of its own
      enumerable properties in [Object.keys] order, each key occurring
      once.  Reading a property of a record the program built itself is an
      own-property read; reading [obj[header]] of a parsed body also sees
      the members of [Object.prototype] and, for an array, those of
      [Array.prototype].
    - Numbers are the integers the program computes with (status codes,
      millisecond time stamps) together with [NaN].
    - Code that can raise returns a [completion]: [Return v] or [Throw e].
    - The network, the clock and the log file are the handler's
      environment; the handler returns the trace of what it did with them. *)

From Stdlib Require Import String Ascii List ZArith Lia Bool DecimalString.
Import ListNotations.
Open Scope string_scope.
Set Warnings "-register-all".

(** ** JavaScript values *)

Inductive number : Type :=
| Int (z : Z)
| NaN.

Inductive value : Type :=
| Undefined
| Null
| Boolean (b : bool)
| Num (n : number)
| Str (s : string)
| Arr (elems : list value)
| Obj (props : list (string * value))
| Native (name : string).

(** An object literal: own properties in enumeration order. *)
Definition object : Type := list (string * value).

Inductive exn : Type :=
| TypeError (message : string)
| Error (message : string).

Definition exn_message (e : exn) : string :=
  match e with
  | TypeError m => m
  | Error m => m
  end.

Inductive completion (A : Type) : Type :=
| Return (a : A)
| Throw (e : exn).

Arguments Return {A} a.
Arguments Throw {A} e.

Definition bind {A B} (c : completion A) (k : A -> completion B) : completion B :=
  match c with
  | Return a => k a
  | Throw e => Throw e
  end.

Notation "x <- c ;; k" := (bind c (fun x => k))
  (at level 61, c at next level, right associativity).

(** [try { body } catch (error) { handler }] *)
Definition try_catch {A} (body : completion A) (handler : exn -> completion A)
  : completion A :=
  match body with
  | Return a => Return a
  | Throw e => handler e
  end.

Fixpoint mapM {A B} (f : A -> completion B) (l : list A) : completion (list B) :=
  match l with
  | [] => Return []
  | x :: rest => y <- f x ;; ys <- mapM f rest ;; Return (y :: ys)
  end.

(** Characters the CSV code looks for. *)
Definition COMMA : ascii := ascii_of_nat 44.
Definition LF : ascii := ascii_of_nat 10.
Definition DQUOTE : ascii := ascii_of_nat 34.

Definition str1 (c : ascii) : string := String c EmptyString.

(** [Array.prototype.join] on strings. *)
Definition join (sep : string) (parts : list string) : string :=
  String.concat sep parts.

(** [String.prototype.includes] for a one-character needle. *)
Fixpoint includes (s : string) (c : ascii) : bool :=
  match s with
  | EmptyString => false
  | String a rest => Ascii.eqb a c || includes rest c
  end.

(** [s.replace] with the global pattern: every double quote becomes two. *)
Fixpoint replace_quotes (s : string) : string :=
  match s with
  | EmptyString => EmptyString
  | String a rest =>
      if Ascii.eqb a DQUOTE
      then String DQUOTE (String DQUOTE (replace_quotes rest))
      else String a (replace_quotes rest)
  end.

(** [String(n)] for an integer below 10^21 in absolute value, where
    JavaScript prints all the digits, and for [NaN]. *)
Definition number_to_string (n : number) : string :=
  match n with
  | Int z => NilZero.string_of_int (Z.to_int z)
  | NaN => "NaN"
  end.

Definition js_sub (a b : number) : number :=
  match a, b with
  | Int x, Int y => Int (x - y)
  | _, _ => NaN
  end.

(** ToBoolean *)
Definition truthy (v : value) : bool :=
  match v with
  | Undefined | Null => false
  | Boolean b => b
  | Num (Int z) => negb (z =? 0)%Z
  | Num NaN => false
  | Str s => negb (s =? "")
  | Arr _ | Obj _ | Native _ => true
  end.

(** [a || b] *)
Definition or_else (a b : value) : value := if truthy a then a else b.

Fixpoint lookup (k : string) (o : object) : option value :=
  match o with
  | [] => None
  | (k', v) :: rest => if k' =? k then Some v else lookup k rest
  end.

Definition has_own (k : string) (o : object) : bool :=
  match lookup k o with Some _ => true | None => false end.

(** [o.k] on an object literal. *)
Definition get (o : object) (k : string) : value :=
  match lookup k o with Some v => v | None => Undefined end.

(** [o.k = v] *)
Fixpoint set (o : object) (k : string) (v : value) : object :=
  match o with
  | [] => [(k, v)]
  | (k', v') :: rest =>
      if k' =? k then (k', v) :: rest else (k', v') :: set rest k v
  end.

Definition nat_to_string (n : nat) : string :=
  NilZero.string_of_uint (Nat.to_uint n).

(** Index of an array whose canonical decimal form is [k]. *)
Fixpoint array_index (k : string) (i : nat) (elems : list value) : option value :=
  match elems with
  | [] => None
  | x :: rest =>
      if nat_to_string i =? k then Some x else array_index k (S i) rest
  end.

(** The names [Object.prototype] defines, all of them functions except
    the accessor [__proto__]. *)
Definition prototype_functions : list string :=
  ["constructor"; "__defineGetter__"; "__defineSetter__"; "hasOwnProperty";
   "__lookupGetter__"; "__lookupSetter__"; "isPrototypeOf";
   "propertyIsEnumerable"; "toString"; "valueOf"; "toLocaleString"].


(** What a plain object inherits under the name [k]: [Object.prototype]
    itself for [__proto__] (an object without enumerable keys), the
    constructor [Object], or the method of that name. *)
Definition object_prototype (k : string) : value :=
  if k =? "__proto__" then Obj []
  else if k =? "constructor" then Native "Object"
  else if existsb (String.eqb k) prototype_functions then Native k
  else Undefined.

(** The methods [Array.prototype] defines under a string name (ECMAScript
    2023), besides its [constructor] and its own [length]. *)
Definition array_prototype_functions : list string :=
  ["at"; "concat"; "copyWithin"; "entries"; "every"; "fill"; "filter"; "find";
   "findIndex"; "findLast"; "findLastIndex"; "flat"; "flatMap"; "forEach";
   "includes"; "indexOf"; "join"; "keys"; "lastIndexOf"; "map"; "pop"; "push";
   "reduce"; "reduceRight"; "reverse"; "shift"; "slice"; "some"; "sort";
   "splice"; "toLocaleString"; "toReversed"; "toSorted"; "toSpliced";
   "toString"; "unshift"; "values"; "with"].

(** What an array inherits under the name [k]: [Array.prototype] itself
    for [__proto__] (an empty array), the constructor [Array], a method of
    [Array.prototype], or else what [Object.prototype] gives. *)
Definition array_prototype (k : string) : value :=
  if k =? "__proto__" then Arr []
  else if k =? "constructor" then Native "Array"
  else if existsb (String.eqb k) array_prototype_functions then Native k
  else object_prototype k.

(** [v[k]]: the own property, else the inherited one.  The own
    properties of an array are its indices and [length]. *)
Definition get_prop (v : value) (k : string) : value :=
  match v with
  | Obj props =>
      match lookup k props with
      | Some x => x
      | None => object_prototype k
      end
  | Arr elems =>
      match array_index k 0 elems with
      | Some x => x
      | None =>
          if k =? "length" then Num (Int (Z.of_nat (List.length elems)))
          else array_prototype k
      end
  | _ => Undefined
  end.

(** [Object.keys]; the program calls it on objects and arrays only. *)
Definition keys (v : value) : list string :=
  match v with
  | Obj props => map fst props
  | Arr elems => map nat_to_string (seq 0 (List.length elems))
  | _ => []
  end.

(** [typeof v === 'object' && v !== null] *)
Definition is_object (v : value) : bool :=
  match v with
  | Arr _ | Obj _ => true
  | _ => false
  end.

(** A plain object, the mapping of the data model. *)
Definition is_mapping (v : value) : bool :=
  match v with
  | Obj _ => true
  | _ => false
  end.

Definition isArray (v : value) : bool :=
  match v with
  | Arr _ => true
  | _ => false
  end.

Definition is_nullish (v : value) : bool :=
  match v with
  | Undefined | Null => true
  | _ => false
  end.

Definition CANNOT_CONVERT : string := "Cannot convert object to primitive value".

(** [String(v)] and the conversion of a template literal.  An object whose
    own [toString] property shadows the inherited method has no callable
    conversion (no JSON value is callable; the inherited [valueOf] returns
    the object itself), so the conversion raises a TypeError.  An array is
    converted by [join], which renders null and undefined elements as empty. *)
Fixpoint ToString (v : value) : completion string :=
  match v with
  | Undefined => Return "undefined"
  | Null => Return "null"
  | Boolean true => Return "true"
  | Boolean false => Return "false"
  | Num n => Return (number_to_string n)
  | Str s => Return s
  | Arr elems =>
      let fix elements (l : list value) : completion (list string) :=
        match l with
        | [] => Return []
        | x :: rest =>
            s <- (if is_nullish x then Return "" else ToString x) ;;
            ss <- elements rest ;;
            Return (s :: ss)
        end in
      ss <- elements elems ;; Return (join "," ss)
  | Obj props =>
      if has_own "toString" props
      then Throw (TypeError CANNOT_CONVERT)
      else Return "[object Object]"
  | Native name => Return ("function " ++ name ++ "() { [native code] }")
  end.

(** ** The response normaliser *)

(** [config.metadata]: the time stamps the handler attaches; [None] is an
    absent property. *)
Record request_metadata : Type := {
  startTime : option Z;
  endTime : option Z
}.

(** What the HTTP client hands back (axios response). *)
Record response : Type := {
  status : value;
  statusText : value;
  headers : value;
  data : value;
  config_metadata : option request_metadata
}.

(** What the HTTP client raises (axios error). *)
Record failure : Type := {
  message : value;
  code : value;
  error_response : option response
}.

Definition stamp (t : option Z) : number :=
  match t with
  | Some z => Int z
  | None => NaN
  end.

(** [response.config.metadata?.endTime - response.config.metadata?.startTime] *)
Definition elapsed (r : response) : number :=
  match config_metadata r with
  | Some m => js_sub (stamp (endTime m)) (stamp (startTime m))
  | None => NaN
  end.

Definition formatApiResponse (response : response) (method url requestData : value)
  : object :=
  let result :=
    [ ("success", Boolean true);
      ("method", method);
      ("url", url);
      ("status", status response);
      ("statusText", statusText response);
      ("headers", headers response);
      ("data", data response);
      ("responseTime", or_else (Num (elapsed response)) (Str "N/A")) ] in
  if truthy requestData then set result "requestData" requestData else result.

Definition formatErrorResponse (error : failure) (method url requestData : value)
  : object :=
  let result :=
    [ ("success", Boolean false);
      ("method", method);
      ("url", url);
      ("error", message error);
      ("code", or_else (code error) (Str "UNKNOWN_ERROR")) ] in
  let result :=
    match error_response error with
    | Some r =>
        set (set (set (set result "status" (status r))
                      "statusText" (statusText r))
                 "headers" (headers r))
            "data" (data r)
    | None => result
    end in
  if truthy requestData then set result "requestData" requestData else result.

(** ** The CSV projector *)

(** The last test of the source, on numeric strings, returns the string
    unchanged on both sides and is left out. *)
Definition escapeCsvValue (value : value) : completion string :=
  if is_nullish value then Return ""
  else
    stringValue <- ToString value ;;
    if includes stringValue COMMA || includes stringValue LF
       || includes stringValue DQUOTE
    then Return (str1 DQUOTE ++ replace_quotes stringValue ++ str1 DQUOTE)
    else Return stringValue.

(** [new Set()] with [add]: insertion order, no duplicates. *)
Definition set_add (headers : list string) (key : string) : list string :=
  if existsb (String.eqb key) headers then headers else List.app headers [key].

(** First [forEach] of [convertArrayOfObjectsToCsv]: collect the keys. *)
Definition collect_headers (data : list value) : list string :=
  fold_left
    (fun headers obj =>
       if is_object obj then fold_left set_add (keys obj) headers else headers)
    data [].

(** Second [forEach]: push one row per object element. *)
Fixpoint push_rows (headerArray : list string) (data : list value)
                   (csvRows : list string) : completion (list string) :=
  match data with
  | [] => Return csvRows
  | obj :: rest =>
      if is_object obj then
        row <- mapM (fun header => escapeCsvValue (get_prop obj header)) headerArray ;;
        push_rows headerArray rest (List.app csvRows [join (str1 COMMA) row])
      else push_rows headerArray rest csvRows
  end.

(** The array [csvRows] just before the final [join]; [None] when the
    function returns the empty string early. *)
Definition arrayCsvRows (data : value) : completion (option (list string)) :=
  match data with
  | Arr elems =>
      if (List.length elems =? 0)%nat then Return None
      else
        let headerArray := collect_headers elems in
        if (List.length headerArray =? 0)%nat then Return None
        else
          header <- mapM escapeCsvValue (map Str headerArray) ;;
          csvRows <- push_rows headerArray elems [join (str1 COMMA) header] ;;
          Return (Some csvRows)
  | _ => Return None
  end.

Definition convertArrayOfObjectsToCsv (data : value) : completion string :=
  rows <- arrayCsvRows data ;;
  match rows with
  | Some csvRows => Return (join (str1 LF) csvRows)
  | None => Return ""
  end.

Definition convertObjectToCsv (data : value) : completion string :=
  if negb (is_object data) then Return ""
  else
    let headers := keys data in
    if (List.length headers =? 0)%nat then Return ""
    else
      header <- mapM escapeCsvValue (map Str headers) ;;
      row <- mapM (fun header => escapeCsvValue (get_prop data header)) headers ;;
      Return (join (str1 LF) [join (str1 COMMA) header; join (str1 COMMA) row]).

Definition NA : value := Str "N/A".

Definition generateMetadataRow (result : object) : completion string :=
  s <- ToString (or_else (get result "status") NA) ;;
  m <- ToString (or_else (get result "method") NA) ;;
  u <- ToString (or_else (get result "url") NA) ;;
  t <- ToString (or_else (get result "responseTime") NA) ;;
  let metadata := ["status:" ++ s; "method:" ++ m; "url:" ++ u; "time:" ++ t ++ "ms"] in
  metadata <-
    (if truthy (get result "error")
     then e <- ToString (get result "error") ;; Return (List.app metadata ["error:" ++ e])
     else Return metadata) ;;
  Return ("# " ++ join "|" metadata).

(** The branch of [toCsv] taken when [result.error] is set. *)
Definition errorCsv (result : object) : completion string :=
  meta <- generateMetadataRow result ;;
  e1 <- escapeCsvValue (get result "error") ;;
  c <- escapeCsvValue (or_else (get result "code") (Str "UNKNOWN_ERROR")) ;;
  e2 <- escapeCsvValue (get result "error") ;;
  Return (join (str1 LF)
            [meta; "error,code,message";
             e1 ++ str1 COMMA ++ c ++ str1 COMMA ++ e2]).

(** The table computed from [result.data]; empty when there is none. *)
Definition dataCsvContent (result : object) : completion string :=
  let data := get result "data" in
  if truthy data then
    if isArray data then convertArrayOfObjectsToCsv data
    else if is_object data then convertObjectToCsv data
    else v <- escapeCsvValue data ;; Return ("value" ++ str1 LF ++ v)
  else Return "".

Definition defaultCsvContent (result : object) : completion string :=
  s <- escapeCsvValue (get result "status") ;;
  m <- escapeCsvValue (get result "method") ;;
  u <- escapeCsvValue (get result "url") ;;
  Return ("status,method,url" ++ str1 LF ++ s ++ str1 COMMA ++ m ++ str1 COMMA ++ u).

(** The body of the [try] block of [toCsv]. *)
Definition toCsv_body (result : object) : completion string :=
  if truthy (get result "error") then errorCsv result
  else
    metadataRow <- generateMetadataRow result ;;
    csvContent <- dataCsvContent result ;;
    csvContent <-
      (if (csvContent =? "") then defaultCsvContent result
       else Return csvContent) ;;
    Return (metadataRow ++ str1 LF ++ csvContent).

(** The [catch] block of [toCsv]. *)
Definition fallbackCsv (result : object) (error : exn) : completion string :=
  meta <- generateMetadataRow result ;;
  m <- escapeCsvValue (Str (exn_message error)) ;;
  Return (join (str1 LF)
            [meta; "error,code,message";
             "CSV Conversion Error,CONVERSION_ERROR," ++ m]).

Definition toCsv (result : object) : completion string :=
  try_catch (toCsv_body result) (fallbackCsv result).

(** ** The tool-call handler *)

(** The text of a tool result: a CSV document, or [JsonText v] for
    [JSON.stringify(v, null, 2)]. *)
Inductive payload : Type :=
| CsvText (s : string)
| JsonText (v : value).

(** [isError] is false where the source leaves the field out. *)
Record tool_result : Type := {
  text : payload;
  isError : bool
}.

Definition strict_eq_string (v : value) (s : string) : bool :=
  match v with
  | Str s' => s' =? s
  | _ => false
  end.

Definition buildContent (result : object) (format : value) : completion tool_result :=
  if strict_eq_string format "csv"
  then s <- toCsv result ;; Return {| text := CsvText s; isError := false |}
  else Return {| text := JsonText (Obj result); isError := false |}.

(** One call of the HTTP client. *)
Record http_request : Type := {
  verb : string;
  request_url : value;
  request_body : value;
  request_headers : value;
  request_params : value
}.

Record http_reply : Type := {
  reply_status : value;
  reply_statusText : value;
  reply_headers : value;
  reply_data : value
}.

Inductive outcome : Type :=
| Resolved (reply : http_reply)
| Rejected (error : failure).

(** The environment of one invocation: the network and the two readings
    of [Date.now()]. *)
Record world : Type := {
  send : http_request -> outcome;
  now_before : Z;
  now_after : Z
}.

Inductive log_kind : Type :=
| RequestFailure
| HandlerError.

Inductive event : Type :=
| NetworkCall (request : http_request)
| LogAppend (kind : log_kind).

Definition is_network_call (e : event) : bool :=
  match e with
  | NetworkCall _ => true
  | LogAppend _ => false
  end.

(** The caught value seen as an error object: an exception raised inside
    the handler has a message and neither code nor response. *)
Definition failure_of_exn (e : exn) : failure :=
  {| message := Str (exn_message e); code := Undefined; error_response := None |}.

Definition handleErrorWithLogging (error : failure)
    (method url requestData format : value) : list event * completion tool_result :=
  let errorResponse := formatErrorResponse error method url requestData in
  ([LogAppend RequestFailure], buildContent errorResponse format).

(** The inner [try]/[catch] shared by the five cases: call the client,
    stamp the end time, normalise, serialise; any failure goes to
    [handleErrorWithLogging]. *)
Definition attempt (w : world) (request : http_request)
    (method url requestData format : value) : list event * completion tool_result :=
  let fail error :=
    let '(events, r) := handleErrorWithLogging error method url requestData format in
    (NetworkCall request :: events, r) in
  match send w request with
  | Resolved reply =>
      let response :=
        {| status := reply_status reply;
           statusText := reply_statusText reply;
           headers := reply_headers reply;
           data := reply_data reply;
           config_metadata :=
             Some {| startTime := Some (now_before w);
                     endTime := Some (now_after w) |} |} in
      let result := formatApiResponse response method url requestData in
      match buildContent result format with
      | Return r => ([NetworkCall request], Return r)
      | Throw e => fail (failure_of_exn e)
      end
  | Rejected error => fail error
  end.

Definition typeof (v : value) : string :=
  match v with
  | Undefined => "undefined"
  | Null | Arr _ | Obj _ => "object"
  | Boolean _ => "boolean"
  | Num _ => "number"
  | Str _ => "string"
  | Native _ => "function"
  end.

(** The schema argument is not consulted. *)
Definition validateArgs (args : value) : completion object :=
  let argsToValidate := or_else args (Obj []) in
  match argsToValidate with
  | Obj props => Return props
  | other =>
      Throw (Error ("Invalid arguments: expected object, got " ++ typeof other))
  end.

Definition lower_ascii (c : ascii) : ascii :=
  let n := nat_of_ascii c in
  if (65 <=? n)%nat && (n <=? 90)%nat then ascii_of_nat (n + 32) else c.

Definition upper_ascii (c : ascii) : ascii :=
  let n := nat_of_ascii c in
  if (97 <=? n)%nat && (n <=? 122)%nat then ascii_of_nat (n - 32) else c.

Fixpoint map_string (f : ascii -> ascii) (s : string) : string :=
  match s with
  | EmptyString => EmptyString
  | String c rest => String (f c) (map_string f rest)
  end.

(** [method.toLowerCase()] on an argument of any type.  The mapping of
    letters is that of JavaScript on strings of ASCII characters, which
    the method tokens are; other letters are left as they are. *)
Definition toLowerCase (v : value) : completion string :=
  match v with
  | Str s => Return (map_string lower_ascii s)
  | Undefined =>
      Throw (TypeError "Cannot read properties of undefined (reading 'toLowerCase')")
  | Null =>
      Throw (TypeError "Cannot read properties of null (reading 'toLowerCase')")
  | _ => Throw (TypeError "method.toLowerCase is not a function")
  end.

(** [method.toUpperCase()]; evaluated only after [toLowerCase] succeeded,
    that is on a string.  Exact on strings of ASCII characters, like
    [toLowerCase]. *)
Definition toUpperCase (v : value) : value :=
  match v with
  | Str s => Str (map_string upper_ascii s)
  | other => other
  end.

Definition simple_request (verb : string) (url body headers params : value)
  : http_request :=
  {| verb := verb; request_url := url; request_body := body;
     request_headers := headers; request_params := params |}.

(** The [switch] inside the outer [try]. *)
Definition dispatch (w : world) (name : string) (args : value)
  : list event * completion tool_result :=
  if name =? "api_get" then
    match validateArgs args with
    | Throw e => ([], Throw e)
    | Return a =>
        let url := get a "url" in
        let fmt := or_else (get a "format") (Str "json") in
        attempt w (simple_request "get" url Undefined (get a "headers") (get a "params"))
                (Str "GET") url Null fmt
    end
  else if name =? "api_post" then
    match validateArgs args with
    | Throw e => ([], Throw e)
    | Return a =>
        let url := get a "url" in
        let data := get a "data" in
        let fmt := or_else (get a "format") (Str "json") in
        attempt w (simple_request "post" url data (get a "headers") (get a "params"))
                (Str "POST") url data fmt
    end
  else if name =? "api_put" then
    match validateArgs args with
    | Throw e => ([], Throw e)
    | Return a =>
        let url := get a "url" in
        let data := get a "data" in
        let fmt := or_else (get a "format") (Str "json") in
        attempt w (simple_request "put" url data (get a "headers") (get a "params"))
                (Str "PUT") url data fmt
    end
  else if name =? "api_delete" then
    match validateArgs args with
    | Throw e => ([], Throw e)
    | Return a =>
        let url := get a "url" in
        let fmt := or_else (get a "format") (Str "json") in
        attempt w (simple_request "delete" url Undefined (get a "headers") (get a "params"))
                (Str "DELETE") url Null fmt
    end
  else if name =? "api_request" then
    match validateArgs args with
    | Throw e => ([], Throw e)
    | Return a =>
        let method := get a "method" in
        let url := get a "url" in
        let data := get a "data" in
        let fmt := or_else (get a "format") (Str "json") in
        match toLowerCase method with
        | Throw e => ([], Throw e)
        | Return lower =>
            let body :=
              if truthy data
                 && existsb (String.eqb lower) ["post"; "put"; "patch"]
              then data else Undefined in
            attempt w (simple_request lower url body (get a "headers") (get a "params"))
                    (toUpperCase method) url data fmt
        end
    end
  else ([], Throw (Error ("Unknown tool: " ++ name))).

(** The request handler: the outer [catch] logs a handler error and
    answers with the error flag set. *)
Definition handler (w : world) (name : string) (args : value)
  : list event * tool_result :=
  match dispatch w name args with
  | (events, Return r) => (events, r)
  | (events, Throw error) =>
      (List.app events [LogAppend HandlerError],
       {| text := JsonText (Obj [ ("success", Boolean false);
                                  ("error", Str (exn_message error));
                                  ("tool", Str name) ]);
          isError := true |})
  end.

Definition network_calls (events : list event) : list event :=
  filter is_network_call events.

(** * Words of the specification and sample data *)

(** ** Shapes of a canonical result *)

Definition has (o : object) (k : string) : Prop := has_own k o = true.

Definition success_shaped (o : object) : Prop :=
  has o "status" /\ has o "statusText" /\ has o "headers" /\ has o "data" /\
  ~ has o "error" /\ ~ has o "code".

Definition failure_shaped (o : object) : Prop :=
  has o "error" /\ has o "code".

(** ** Escaping and key union, stated independently of the code *)

(** The string contains the character. *)
Definition contains (c : ascii) (s : string) : Prop :=
  In c (list_ascii_of_string s).

(** A comma, a line break or a double quote occurs in the string. *)
Definition needs_quoting (s : string) : Prop :=
  contains COMMA s \/ contains LF s \/ contains DQUOTE s.

(** Each double quote doubled. *)
Definition doubled (s : string) : string :=
  string_of_list_ascii
    (flat_map (fun c => if Ascii.eqb c DQUOTE then [DQUOTE; DQUOTE] else [c])
              (list_ascii_of_string s)).

(** The keys of a sequence in first-seen order, each once. *)
Fixpoint first_seen (ks : list string) : list string :=
  match ks with
  | [] => []
  | k :: rest => k :: filter (fun k' => negb (k' =? k)) (first_seen rest)
  end.

(** The union of the keys of all elements, in first-seen order. *)
Definition key_union (elems : list value) : list string :=
  first_seen (concat (map keys elems)).

(** The escaping rule on a string. *)
Definition escape_string (s : string) : string :=
  if includes s COMMA || includes s LF || includes s DQUOTE
  then str1 DQUOTE ++ replace_quotes s ++ str1 DQUOTE
  else s.

Definition example_cell_in : string := "a,b" ++ str1 DQUOTE ++ "c".
Definition example_cell_out : string :=
  str1 DQUOTE ++ "a,b" ++ str1 DQUOTE ++ str1 DQUOTE ++ "c" ++ str1 DQUOTE.

(** A refused connection whose aggregate error has an empty message. *)
Definition empty_message_failure : failure :=
  {| message := Str ""; code := Str "ECONNREFUSED"; error_response := None |}.

(** ** Cells, rows and tables *)

(** The cell a value is rendered as, and whether rendering it raises. *)
Definition cell (v : value) : string :=
  match escapeCsvValue v with
  | Return s => s
  | Throw _ => ""
  end.

Definition renders (v : value) : bool :=
  match escapeCsvValue v with
  | Return _ => true
  | Throw _ => false
  end.

(** Every cell of the row of [obj] under the header [hs] renders. *)
Definition row_renders (hs : list string) (obj : value) : bool :=
  forallb (fun h => renders (get_prop obj h)) hs.

(** The row of one element: its values looked up per header key. *)
Definition row_of (hs : list string) (obj : value) : string :=
  join (str1 COMMA) (map (fun h => cell (get_prop obj h)) hs).

Definition header_row (hs : list string) : string :=
  join (str1 COMMA) (map escape_string hs).

Definition mem (k : string) (l : list string) : bool := existsb (String.eqb k) l.

(** The table of step 4: header [status,method,url] and those three values. *)
Definition default_table (result : object) : string :=
  "status,method,url" ++ str1 LF
  ++ cell (get result "status") ++ str1 COMMA
  ++ cell (get result "method") ++ str1 COMMA
  ++ cell (get result "url").


(** ** Sample data *)

Definition sample_url : value := Str "http://h/p".

Definition ok_response (d : value) : response :=
  {| status := Num (Int 200); statusText := Str "OK"; headers := Obj [];
     data := d;
     config_metadata := Some {| startTime := Some 100%Z; endTime := Some 112%Z |} |}.

(** A successful GET whose body is [d]. *)
Definition ok_result (d : value) : object :=
  formatApiResponse (ok_response d) (Str "GET") sample_url Null.

Definition ok_meta : string := "# status:200|method:GET|url:http://h/p|time:12ms".




(** An object whose own [toString] property is not a function. *)
Definition unprintable : value := Obj [("toString", Num (Int 1))].

(** The record of a failed call whose [url] argument was [unprintable]. *)
Definition unprintable_url_result : object :=
  formatErrorResponse
    {| message := Str CANNOT_CONVERT; code := Undefined; error_response := None |}
    (Str "GET") unprintable Null.

Definition xy_data : value :=
  Arr [Obj [("x", Num (Int 1))]; Obj [("y", Num (Int 2))]].

Definition mixed_data : list value :=
  [Null; Obj [("x", Num (Int 1))]; Num (Int 7); Str "s"].

(** A network that refuses every connection. *)
Definition refusing_world : world :=
  {| send := fun _ =>
       Rejected {| message := Str "connect ECONNREFUSED 127.0.0.1:80";
                   code := Str "ECONNREFUSED"; error_response := None |};
     now_before := 100; now_after := 101 |}.

(** ** Further words used by the properties of the whole file *)

(** How often the character occurs in the string. *)
Fixpoint count_char (c : ascii) (s : string) : nat :=
  match s with
  | EmptyString => 0
  | String a rest => (if Ascii.eqb a c then 1 else 0) + count_char c rest
  end.

(** The four operations whose method is implied by their name. *)
Definition simple_tools : list string :=
  ["api_get"; "api_post"; "api_put"; "api_delete"].

Definition tool_names : list string :=
  ["api_get"; "api_post"; "api_put"; "api_delete"; "api_request"].

(** The four operations with the client method each one calls and the
    method label it gives its record. *)
Definition simple_tool_table : list (string * string * string) :=
  [ ("api_get", "get", "GET"); ("api_post", "post", "POST");
    ("api_put", "put", "PUT"); ("api_delete", "delete", "DELETE") ].

(** Every character of the string is an ASCII character. *)
Fixpoint is_ascii_string (s : string) : bool :=
  match s with
  | EmptyString => true
  | String c rest => (nat_of_ascii c <? 128)%nat && is_ascii_string rest
  end.

(** The methods for which the generic operation sends a body. *)
Definition body_methods : list string := ["post"; "put"; "patch"].

(** A network that answers every request with 200 and the body [d]. *)
Definition answering_world (d : value) : world :=
  {| send := fun _ =>
       Resolved {| reply_status := Num (Int 200); reply_statusText := Str "OK";
                   reply_headers := Obj []; reply_data := d |};
     now_before := 100; now_after := 112 |}.


(** The response the handler passes to [formatApiResponse]: the reply
    with the two time stamps of the invocation. *)
Definition stamped_response (w : world) (reply : http_reply) : response :=
  {| status := reply_status reply;
     statusText := reply_statusText reply;
     headers := reply_headers reply;
     data := reply_data reply;
     config_metadata :=
       Some {| startTime := Some (now_before w);
               endTime := Some (now_after w) |} |}.




(** The error texts the outer [catch] of the handler can report. *)
Definition handler_reasons (name : string) (args : value) : list string :=
  [ "Unknown tool: " ++ name;
    "Invalid arguments: expected object, got " ++ typeof args;
    "Cannot read properties of undefined (reading 'toLowerCase')";
    "Cannot read properties of null (reading 'toLowerCase')";
    "method.toLowerCase is not a function";
    CANNOT_CONVERT ].

(** * Properties *)

(** ** Strings *)

Lemma includes_contains (s : string) (c : ascii) :
  includes s c = true <-> contains c s.
Proof.
  unfold contains. induction s as [|a s IH]; simpl.
  - split; [discriminate | tauto].
  - rewrite orb_true_iff, IH, Ascii.eqb_eq. tauto.
Qed.

Lemma replace_quotes_doubled (s : string) : replace_quotes s = doubled s.
Proof.
  unfold doubled. induction s as [|a s IH]; simpl; [reflexivity|].
  rewrite IH. destruct (Ascii.eqb a DQUOTE); reflexivity.
Qed.

Lemma needs_quoting_test (s : string) :
  includes s COMMA || includes s LF || includes s DQUOTE = true <-> needs_quoting s.
Proof.
  unfold needs_quoting.
  rewrite !orb_true_iff, !includes_contains. tauto.
Qed.

Lemma append_cons_not_empty (a : string) (c : ascii) (b : string) :
  (a ++ String c b =? "") = false.
Proof. destruct a; reflexivity. Qed.

Lemma escapeCsvValue_Str (s : string) :
  escapeCsvValue (Str s) = Return (escape_string s).
Proof.
  unfold escapeCsvValue, escape_string; simpl.
  destruct (includes s COMMA || includes s LF || includes s DQUOTE); reflexivity.
Qed.

Lemma escapeCsvValue_of_ToString (v : value) (s : string) :
  ToString v = Return s ->
  escapeCsvValue v = Return (if is_nullish v then "" else escape_string s).
Proof.
  intros H. unfold escapeCsvValue, escape_string.
  destruct (is_nullish v); [reflexivity|].
  rewrite H; simpl.
  destruct (includes s COMMA || includes s LF || includes s DQUOTE); reflexivity.
Qed.

(** C7: a null or undefined cell is empty; a value whose string form
    contains a comma, a line break or a double quote is wrapped in double
    quotes with every inner double quote doubled; any other value is its
    plain string form; the sample string with a comma and a quote escapes
    to the quoted cell with the quote doubled. *)
Theorem escapeCsvValue_rule (v : value) (s : string)
    (Hform : ToString v = Return s) :
  (is_nullish v = true -> escapeCsvValue v = Return "") /\
  (is_nullish v = false -> needs_quoting s ->
     escapeCsvValue v = Return (str1 DQUOTE ++ doubled s ++ str1 DQUOTE)) /\
  (is_nullish v = false -> ~ needs_quoting s -> escapeCsvValue v = Return s) /\
  escapeCsvValue (Str example_cell_in) = Return example_cell_out.
Proof.
  pose proof (escapeCsvValue_of_ToString v s Hform) as E.
  unfold escape_string in E.
  repeat split.
  - intros Hn. rewrite Hn in E. exact E.
  - intros Hn Hq. rewrite Hn in E.
    apply needs_quoting_test in Hq. rewrite Hq in E.
    rewrite <- replace_quotes_doubled. exact E.
  - intros Hn Hq. rewrite Hn in E.
    destruct (includes s COMMA || includes s LF || includes s DQUOTE) eqn:T.
    + exfalso. apply Hq. apply needs_quoting_test. exact T.
    + exact E.
Qed.

Lemma escapeCsvValue_rule_witness :
  escapeCsvValue (Str example_cell_in) = Return example_cell_out /\
  escapeCsvValue (Num (Int 42)) = Return "42".
Proof.
  split.
  - apply (escapeCsvValue_rule (Str example_cell_in) example_cell_in eq_refl).
  - apply (escapeCsvValue_rule (Num (Int 42)) "42" eq_refl); [reflexivity|].
    unfold needs_quoting, contains; simpl.
    intros [H|[H|H]]; repeat (destruct H as [H|H]; [discriminate H|]); exact H.
Defined.

(** ** The normaliser *)

Section Normaliser.

Variables (method url requestData : value).

Ltac by_request_data :=
  destruct (truthy requestData); cbn; intuition congruence.

Lemma formatApiResponse_shape (r : response) :
  let result := formatApiResponse r method url requestData in
  success_shaped result /\ ~ failure_shaped result /\
  has result "method" /\ has result "url".
Proof.
  unfold formatApiResponse, success_shaped, failure_shaped, has, has_own.
  by_request_data.
Qed.

Lemma formatErrorResponse_shape (e : failure) :
  let result := formatErrorResponse e method url requestData in
  failure_shaped result /\ ~ success_shaped result /\
  has result "method" /\ has result "url" /\
  (has result "status" <-> error_response e <> None) /\
  (has result "statusText" <-> error_response e <> None) /\
  (has result "headers" <-> error_response e <> None) /\
  (has result "data" <-> error_response e <> None).
Proof.
  unfold formatErrorResponse, success_shaped, failure_shaped, has, has_own.
  destruct (error_response e); by_request_data.
Qed.

(** C4: whatever the outcome, the record built by the normaliser is
    success-shaped (status, statusText, headers and data present, neither
    error nor code) or failure-shaped (error and code present) and never
    both; a failure record has status, statusText, headers and data
    exactly when the failure carried a response; method and url are
    present in both. *)
Theorem normaliser_shapes (r : response) (e : failure) :
  let ok := formatApiResponse r method url requestData in
  let ko := formatErrorResponse e method url requestData in
  (success_shaped ok /\ ~ failure_shaped ok) /\
  (failure_shaped ko /\ ~ success_shaped ko) /\
  (has ko "status" \/ has ko "statusText" \/ has ko "headers" \/ has ko "data" ->
   error_response e <> None) /\
  (error_response e <> None ->
   has ko "status" /\ has ko "statusText" /\ has ko "headers" /\ has ko "data") /\
  has ok "method" /\ has ok "url" /\ has ko "method" /\ has ko "url" /\
  get ok "method" = method /\ get ok "url" = url /\
  get ko "method" = method /\ get ko "url" = url.
Proof.
  intros ok ko.
  pose proof (formatApiResponse_shape r) as Hok.
  pose proof (formatErrorResponse_shape e) as Hko.
  cbv zeta in Hok, Hko. fold ok in Hok. fold ko in Hko.
  assert (Hget : get ok "method" = method /\ get ok "url" = url /\
                 get ko "method" = method /\ get ko "url" = url).
  { unfold ok, ko, formatApiResponse, formatErrorResponse.
    destruct (error_response e); destruct (truthy requestData); cbn; auto. }
  tauto.
Qed.

(** What the success record always satisfies: the flag, the verbatim copies, the
    absence of error and code, the difference of the time stamps when it
    is not zero, and the sentinel when a time stamp is missing. *)
Lemma formatApiResponse_fields (r : response) :
  let result := formatApiResponse r method url requestData in
  get result "success" = Boolean true /\
  get result "status" = status r /\
  get result "statusText" = statusText r /\
  get result "headers" = headers r /\
  get result "data" = data r /\
  ~ has result "error" /\ ~ has result "code" /\
  get result "responseTime" = or_else (Num (elapsed r)) (Str "N/A").
Proof.
  unfold formatApiResponse, has, has_own.
  destruct (truthy requestData); cbn; intuition congruence.
Qed.

Lemma elapsed_non_zero (r : response) (t0 t1 : Z) :
  config_metadata r = Some {| startTime := Some t0; endTime := Some t1 |} ->
  t1 <> t0 ->
  or_else (Num (elapsed r)) (Str "N/A") = Num (Int (t1 - t0)).
Proof.
  intros Hm Hne. unfold elapsed, or_else. rewrite Hm. cbn.
  destruct (Z.eqb_spec (t1 - t0) 0) as [E|E]; [lia | reflexivity].
Qed.

Lemma elapsed_missing (r : response) :
  match config_metadata r with
  | Some {| startTime := Some _; endTime := Some _ |} => False
  | _ => True
  end ->
  or_else (Num (elapsed r)) (Str "N/A") = Str "N/A".
Proof.
  unfold elapsed. destruct (config_metadata r) as [[[s|] [e|]]|]; cbn; tauto.
Qed.

(** C6, at the input where the code departs from it: both time stamps
    are present and equal, and the record carries the sentinel instead
    of the difference 0. *)
Theorem formatApiResponse_zero_elapsed (st stt h d : value) (t : Z) :
  let r := {| status := st; statusText := stt; headers := h; data := d;
              config_metadata :=
                Some {| startTime := Some t; endTime := Some t |} |} in
  get (formatApiResponse r method url requestData) "responseTime" = Str "N/A" /\
  get (formatApiResponse r method url requestData) "responseTime"
    <> Num (Int (t - t)).
Proof.
  intros r.
  destruct (formatApiResponse_fields r) as (_ & _ & _ & _ & _ & _ & _ & Ht).
  rewrite Ht. unfold elapsed, or_else; cbn. rewrite Z.sub_diag. cbn.
  split; [reflexivity | discriminate].
Qed.

(** C8 as the code has it: the flag is false, error is the message of
    the failure as it is (so non-empty exactly when the message is),
    code is the failure's code or the constant UNKNOWN_ERROR and is never
    empty, and the fields of a carried response are copied. *)
Theorem formatErrorResponse_fields (e : failure) :
  let result := formatErrorResponse e method url requestData in
  get result "success" = Boolean false /\
  get result "error" = message e /\
  truthy (get result "error") = truthy (message e) /\
  get result "code"
    = (if truthy (code e) then code e else Str "UNKNOWN_ERROR") /\
  truthy (get result "code") = true /\
  match error_response e with
  | Some r =>
      get result "status" = status r /\
      get result "statusText" = statusText r /\
      get result "headers" = headers r /\
      get result "data" = data r
  | None => True
  end.
Proof.
  unfold formatErrorResponse, or_else.
  destruct (error_response e); destruct (truthy requestData);
    destruct (truthy (code e)) eqn:Hc; cbn; rewrite ?Hc; intuition congruence.
Qed.

End Normaliser.

(** Counterexample to C8 as stated: a failure whose message is the empty string gives
    a record whose error field is empty. *)
Lemma formatErrorResponse_empty_error :
  let result :=
    formatErrorResponse empty_message_failure (Str "GET")
                        (Str "http://localhost:9") Null in
  get result "success" = Boolean false /\
  get result "error" = message empty_message_failure /\
  get result "error" = Str "" /\
  truthy (get result "error") = false.
Proof. cbn. repeat split. Qed.

(** ** Cells and rows *)

Lemma renders_cell (v : value) :
  renders v = true -> escapeCsvValue v = Return (cell v).
Proof.
  unfold renders, cell. destruct (escapeCsvValue v); [reflexivity | discriminate].
Qed.



(** A key that names a member of [Object.prototype] and is absent from an
    element is read from the prototype, and the cell is not empty. *)
Lemma cell_inherited :
  cell (get_prop (Obj [("y", Num (Int 2))]) "constructor")
  = "function Object() { [native code] }".
Proof. reflexivity. Qed.

(** The same for a nested array: a header named like one of its methods
    reads the method, and its [length] is a property of its own. *)
Lemma cell_inherited_array :
  cell (get_prop (Arr [Num (Int 5)]) "map") = "function map() { [native code] }" /\
  cell (get_prop (Arr [Num (Int 5)]) "length") = "1" /\
  cell (get_prop (Arr [Num (Int 5)]) "0") = "5" /\
  cell (get_prop (Arr [Num (Int 5)]) "x") = "".
Proof. repeat split. Qed.

Lemma cell_present (props : object) (k : string) (v : value) :
  lookup k props = Some v -> cell (get_prop (Obj props) k) = cell v.
Proof.
  intros H. unfold get_prop. rewrite H. reflexivity.
Qed.

Lemma mapM_pure {A B} (f : A -> completion B) (g : A -> B) (l : list A) :
  (forall x, In x l -> f x = Return (g x)) ->
  mapM f l = Return (map g l).
Proof.
  induction l as [|x l IH]; intros H; simpl; [reflexivity|].
  rewrite (H x (or_introl eq_refl)); simpl.
  rewrite IH by (intros y Hy; apply H; right; exact Hy).
  reflexivity.
Qed.

Lemma mapM_header (hs : list string) :
  mapM escapeCsvValue (map Str hs) = Return (map escape_string hs).
Proof.
  induction hs as [|h hs IH]; simpl; [reflexivity|].
  rewrite escapeCsvValue_Str; simpl. rewrite IH. reflexivity.
Qed.

Lemma mapM_row (hs : list string) (obj : value) :
  row_renders hs obj = true ->
  mapM (fun header => escapeCsvValue (get_prop obj header)) hs
  = Return (map (fun h => cell (get_prop obj h)) hs).
Proof.
  intros H. apply mapM_pure. intros h Hh.
  apply renders_cell.
  unfold row_renders in H. rewrite forallb_forall in H. apply H, Hh.
Qed.

Lemma push_rows_pure (hs : list string) (data : list value) :
  forallb (fun obj => negb (is_object obj) || row_renders hs obj) data = true ->
  forall csvRows,
    push_rows hs data csvRows
    = Return (List.app csvRows (map (row_of hs) (filter is_object data))).
Proof.
  induction data as [|obj data IH]; intros H csvRows; simpl.
  - rewrite app_nil_r. reflexivity.
  - simpl in H. apply andb_true_iff in H. destruct H as [Hobj Hrest].
    destruct (is_object obj) eqn:Ho; simpl in Hobj.
    + rewrite (mapM_row hs obj Hobj); simpl.
      rewrite (IH Hrest). rewrite <- app_assoc. reflexivity.
    + apply IH, Hrest.
Qed.

(** *** The header: union of the keys in first-seen order *)

Lemma mem_In (k : string) (l : list string) : mem k l = true <-> In k l.
Proof.
  unfold mem. rewrite existsb_exists. split.
  - intros (x & Hx & E). apply String.eqb_eq in E. subst. exact Hx.
  - intros H. exists k. split; [exact H | apply String.eqb_refl].
Qed.

Lemma filter_filter_comm {A} (p q : A -> bool) (l : list A) :
  filter p (filter q l) = filter q (filter p l).
Proof.
  induction l as [|x l IH]; simpl; [reflexivity|].
  destruct (p x) eqn:Hp, (q x) eqn:Hq; simpl; rewrite ?Hp, ?Hq, IH; reflexivity.
Qed.

Lemma filter_absorb {A} (p q : A -> bool) (l : list A) :
  (forall x, p x = true -> q x = true) ->
  filter p (filter q l) = filter p l.
Proof.
  intros H. induction l as [|x l IH]; simpl; [reflexivity|].
  destruct (q x) eqn:Hq; simpl.
  - rewrite IH. reflexivity.
  - destruct (p x) eqn:Hp; [|exact IH].
    rewrite (H x Hp) in Hq. discriminate.
Qed.

Lemma filter_and {A} (p q : A -> bool) (l : list A) :
  filter p (filter q l) = filter (fun x => p x && q x) l.
Proof.
  induction l as [|x l IH]; simpl; [reflexivity|].
  destruct (q x) eqn:Hq; simpl; rewrite ?andb_false_r, ?andb_true_r, IH; reflexivity.
Qed.

Lemma first_seen_filter (p : string -> bool) (l : list string) :
  first_seen (filter p l) = filter p (first_seen l).
Proof.
  induction l as [|x l IH]; simpl; [reflexivity|].
  destruct (p x) eqn:Hp; simpl; rewrite ?Hp, IH.
  - f_equal. apply filter_filter_comm.
  - symmetry. apply filter_absorb.
    intros y Hy. destruct (String.eqb_spec y x) as [E|E]; [|reflexivity].
    subst. congruence.
Qed.

Lemma In_first_seen (k : string) (l : list string) :
  In k (first_seen l) <-> In k l.
Proof.
  induction l as [|x l IH]; simpl; [tauto|].
  rewrite filter_In, IH.
  destruct (String.eqb_spec k x) as [E|E]; simpl; intuition congruence.
Qed.

Lemma NoDup_filter {A} (p : A -> bool) (l : list A) :
  NoDup l -> NoDup (filter p l).
Proof.
  induction 1 as [|x l Hx Hl IH]; simpl; [constructor|].
  destruct (p x); [constructor|]; auto.
  rewrite filter_In. tauto.
Qed.

Lemma NoDup_first_seen (l : list string) : NoDup (first_seen l).
Proof.
  induction l as [|x l IH]; simpl; constructor.
  - rewrite filter_In, String.eqb_refl. simpl. intros [_ H]. discriminate.
  - apply NoDup_filter, IH.
Qed.

Lemma fold_set_add (ks acc : list string) :
  fold_left set_add ks acc
  = List.app acc (first_seen (filter (fun k => negb (mem k acc)) ks)).
Proof.
  revert acc. induction ks as [|k ks IH]; intros acc; simpl.
  - rewrite app_nil_r. reflexivity.
  - unfold set_add at 2. fold (mem k acc).
    destruct (mem k acc) eqn:Hk; simpl.
    + apply IH.
    + rewrite IH, <- app_assoc. simpl. do 2 f_equal.
      rewrite <- first_seen_filter, filter_and.
      f_equal. apply filter_ext. intros y.
      unfold mem. rewrite existsb_app. simpl.
      rewrite orb_false_r, negb_orb, andb_comm. reflexivity.
Qed.

Lemma fold_set_add_app (ks1 ks2 acc : list string) :
  fold_left set_add (List.app ks1 ks2) acc
  = fold_left set_add ks2 (fold_left set_add ks1 acc).
Proof. apply fold_left_app. Qed.

Lemma collect_headers_fold (data : list value) (acc : list string) :
  fold_left
    (fun headers obj =>
       if is_object obj then fold_left set_add (keys obj) headers else headers)
    data acc
  = fold_left set_add (concat (map keys (filter is_object data))) acc.
Proof.
  revert acc. induction data as [|obj data IH]; intros acc; simpl; [reflexivity|].
  destruct (is_object obj); simpl.
  - rewrite fold_set_add_app. apply IH.
  - apply IH.
Qed.

(** The header computed by the code is the union of the keys of the
    object elements in first-seen order. *)
Lemma collect_headers_union (data : list value) :
  collect_headers data = key_union (filter is_object data).
Proof.
  unfold collect_headers, key_union.
  rewrite collect_headers_fold, fold_set_add. simpl.
  f_equal. induction (concat (map keys (filter is_object data))) as [|x l IH];
    simpl; [reflexivity | f_equal; exact IH].
Qed.


Lemma In_key_union (k : string) (elems : list value) :
  In k (key_union elems) <-> exists obj, In obj elems /\ In k (keys obj).
Proof.
  unfold key_union. rewrite In_first_seen, in_concat. split.
  - intros (ks & Hks & Hk). apply in_map_iff in Hks.
    destruct Hks as (obj & <- & Hobj). eauto.
  - intros (obj & Hobj & Hk). exists (keys obj). split; [|exact Hk].
    apply in_map, Hobj.
Qed.

(** *** The metadata line and the default table *)

Lemma truthy_renders (v : value) (s : string) :
  ToString v = Return s -> renders v = true.
Proof.
  intros H. unfold renders.
  rewrite (escapeCsvValue_of_ToString v s H). reflexivity.
Qed.

Lemma or_else_renders (v : value) (s : string) :
  ToString (or_else v NA) = Return s -> renders v = true.
Proof.
  unfold or_else. destruct (truthy v) eqn:Ht; intros H.
  - exact (truthy_renders v s H).
  - destruct v as [| |b|n|s'|l|o|f]; try discriminate Ht; try reflexivity.
    + destruct b; eapply truthy_renders; reflexivity.
    + eapply truthy_renders; reflexivity.
    + eapply truthy_renders; reflexivity.
Qed.

Lemma bind_Return {A B} (c : completion A) (k : A -> completion B) (b : B) :
  bind c k = Return b -> exists a, c = Return a /\ k a = Return b.
Proof. destruct c as [a|e]; simpl; [eauto | discriminate]. Qed.

Lemma generateMetadataRow_renders (result : object) (meta : string) :
  generateMetadataRow result = Return meta ->
  renders (get result "status") = true /\
  renders (get result "method") = true /\
  renders (get result "url") = true /\
  (truthy (get result "error") = true -> renders (get result "error") = true).
Proof.
  unfold generateMetadataRow. intros H.
  apply bind_Return in H. destruct H as (s & Hs & H).
  apply bind_Return in H. destruct H as (m & Hm & H).
  apply bind_Return in H. destruct H as (u & Hu & H).
  apply bind_Return in H. destruct H as (t & _ & H).
  apply bind_Return in H. destruct H as (parts & Hparts & _).
  repeat split; eauto using or_else_renders.
  intros He. rewrite He in Hparts.
  apply bind_Return in Hparts. destruct Hparts as (e & Hes & _).
  eauto using truthy_renders.
Qed.

Lemma defaultCsvContent_pure (result : object) (meta : string) :
  generateMetadataRow result = Return meta ->
  defaultCsvContent result = Return (default_table result).
Proof.
  intros H. apply generateMetadataRow_renders in H.
  destruct H as (Hs & Hm & Hu & _).
  unfold defaultCsvContent, default_table.
  rewrite (renders_cell _ Hs), (renders_cell _ Hm), (renders_cell _ Hu).
  reflexivity.
Qed.

(** *** The two branches of [toCsv] *)


Lemma toCsv_data_branch (result : object) (meta content : string) :
  truthy (get result "error") = false ->
  generateMetadataRow result = Return meta ->
  dataCsvContent result = Return content ->
  toCsv result
  = Return (meta ++ str1 LF
            ++ (if content =? "" then default_table result else content)).
Proof.
  intros He Hmeta Hc.
  unfold toCsv, toCsv_body.
  rewrite He, Hmeta, Hc. simpl.
  destruct (content =? ""); simpl.
  - rewrite (defaultCsvContent_pure _ _ Hmeta). reflexivity.
  - reflexivity.
Qed.

Lemma toCsv_metadata_Throw (result : object) (e : exn) :
  generateMetadataRow result = Throw e -> toCsv result = Throw e.
Proof.
  intros H. unfold toCsv, toCsv_body, errorCsv, fallbackCsv.
  destruct (truthy (get result "error")); rewrite H; reflexivity.
Qed.

(** When the metadata line renders, [toCsv] returns: a failure of the
    body is turned into the conversion-error table. *)
Lemma toCsv_returns (result : object) (meta : string) :
  generateMetadataRow result = Return meta ->
  match toCsv_body result with
  | Return s => toCsv result = Return s
  | Throw e =>
      toCsv result
      = Return (meta ++ str1 LF ++ "error,code,message" ++ str1 LF
                ++ "CSV Conversion Error,CONVERSION_ERROR,"
                ++ escape_string (exn_message e))
  end.
Proof.
  intros H. unfold toCsv.
  destruct (toCsv_body result) as [s|e]; simpl; [reflexivity|].
  unfold fallbackCsv. rewrite H, escapeCsvValue_Str. reflexivity.
Qed.



(** *** The array projection *)

Lemma collect_headers_nil_inv (elems : list value) :
  collect_headers elems <> [] -> filter is_object elems <> [].
Proof.
  rewrite collect_headers_union. intros H E. apply H.
  rewrite E. reflexivity.
Qed.

Lemma arrayCsvRows_pure (elems : list value) :
  collect_headers elems <> [] ->
  forallb (fun obj => negb (is_object obj)
                      || row_renders (collect_headers elems) obj) elems = true ->
  arrayCsvRows (Arr elems)
  = Return (Some (header_row (collect_headers elems)
                  :: map (row_of (collect_headers elems))
                         (filter is_object elems))).
Proof.
  intros Hne Hcells. unfold arrayCsvRows.
  destruct elems as [|x elems]; [exfalso; apply Hne; reflexivity|].
  cbn [List.length Nat.eqb].
  destruct (collect_headers (x :: elems)) as [|h hs] eqn:Hhs;
    [exfalso; apply Hne; reflexivity|].
  cbn [List.length Nat.eqb].
  rewrite mapM_header. cbn [bind].
  rewrite (push_rows_pure _ _ Hcells). reflexivity.
Qed.

Lemma join_two_not_empty (sep : ascii) (a b : string) (rest : list string) :
  (join (str1 sep) (a :: b :: rest) =? "") = false.
Proof.
  unfold join. cbn [String.concat]. unfold str1. cbn [append].
  apply append_cons_not_empty.
Qed.

Lemma convertArrayOfObjectsToCsv_pure (elems : list value) :
  collect_headers elems <> [] ->
  forallb (fun obj => negb (is_object obj)
                      || row_renders (collect_headers elems) obj) elems = true ->
  let content :=
    join (str1 LF)
         (header_row (collect_headers elems)
          :: map (row_of (collect_headers elems)) (filter is_object elems)) in
  convertArrayOfObjectsToCsv (Arr elems) = Return content /\
  (content =? "") = false.
Proof.
  intros Hne Hcells content. unfold convertArrayOfObjectsToCsv.
  rewrite (arrayCsvRows_pure _ Hne Hcells). split; [reflexivity|].
  unfold content.
  destruct (filter is_object elems) as [|o os] eqn:Hf.
  - exfalso. exact (collect_headers_nil_inv _ Hne Hf).
  - apply join_two_not_empty.
Qed.

Lemma key_union_no_keys (elems : list value) :
  (forall v, In v elems -> is_object v = true -> keys v = []) ->
  collect_headers elems = [].
Proof.
  intros H. rewrite collect_headers_union. unfold key_union.
  replace (concat (map keys (filter is_object elems))) with (@nil string);
    [reflexivity|].
  induction elems as [|x elems IH]; [reflexivity|]. simpl.
  destruct (is_object x) eqn:Hx; simpl.
  - rewrite (H x (or_introl eq_refl) Hx). simpl.
    apply IH. intros v Hv. apply H. right. exact Hv.
  - apply IH. intros v Hv. apply H. right. exact Hv.
Qed.

Lemma convertArrayOfObjectsToCsv_no_keys (elems : list value) :
  collect_headers elems = [] ->
  convertArrayOfObjectsToCsv (Arr elems) = Return "".
Proof.
  intros H. unfold convertArrayOfObjectsToCsv, arrayCsvRows.
  rewrite H. destruct (List.length elems =? 0)%nat; reflexivity.
Qed.

Lemma dataCsvContent_array (result : object) (elems : list value) :
  get result "data" = Arr elems ->
  dataCsvContent result = convertArrayOfObjectsToCsv (Arr elems).
Proof. intros H. unfold dataCsvContent. rewrite H. reflexivity. Qed.

(** *** Decimal numerals contain none of the special characters *)

Lemma includes_uint (d : Decimal.uint) (c : ascii) :
  c = COMMA \/ c = LF \/ c = DQUOTE ->
  includes (NilEmpty.string_of_uint d) c = false.
Proof.
  intros Hc. induction d; simpl; rewrite ?IHd;
    try reflexivity; destruct Hc as [->|[->| ->]]; reflexivity.
Qed.

Lemma includes_number (z : Z) (c : ascii) :
  c = COMMA \/ c = LF \/ c = DQUOTE ->
  includes (number_to_string (Int z)) c = false.
Proof.
  intros Hc. unfold number_to_string, NilZero.string_of_int.
  assert (U : forall d, includes (NilZero.string_of_uint d) c = false).
  { intros d. unfold NilZero.string_of_uint.
    destruct d; try apply includes_uint; try exact Hc.
    destruct Hc as [->|[->| ->]]; reflexivity. }
  destruct (Z.to_int z); simpl; rewrite ?U; [reflexivity|].
  destruct Hc as [->|[->| ->]]; reflexivity.
Qed.

Lemma cell_number (z : Z) : cell (Num (Int z)) = number_to_string (Int z).
Proof.
  unfold cell, escapeCsvValue. cbn [is_nullish ToString bind].
  rewrite !includes_number by tauto. reflexivity.
Qed.


Lemma success_shaped_no_error (result : object) :
  success_shaped result -> truthy (get result "error") = false.
Proof.
  unfold success_shaped, has, has_own, get.
  intros (_ & _ & _ & _ & He & _).
  destruct (lookup "error" result); [exfalso; apply He; reflexivity | reflexivity].
Qed.

(** ** Properties of [toCsv] *)





Lemma ok_result_shape (d : value) : success_shaped (ok_result d).
Proof.
  unfold success_shaped, has, has_own, ok_result. cbn.
  repeat split; discriminate.
Qed.



(** C3, where the code departs from it: the handler of the [catch] block
    builds the metadata line again, so when that line raises, the body
    raises, the fallback raises too, and the exception leaves [toCsv]. *)
Theorem toCsv_rethrows (result : object) (e : exn)
    (Hmeta : generateMetadataRow result = Throw e) :
  toCsv_body result = Throw e /\
  fallbackCsv result e = Throw e /\
  toCsv result = Throw e.
Proof.
  split; [|split].
  - unfold toCsv_body, errorCsv.
    destruct (truthy (get result "error")); rewrite Hmeta; reflexivity.
  - unfold fallbackCsv. rewrite Hmeta. reflexivity.
  - apply toCsv_metadata_Throw, Hmeta.
Qed.

Lemma toCsv_rethrows_witness :
  generateMetadataRow unprintable_url_result = Throw (TypeError CANNOT_CONVERT) /\
  toCsv unprintable_url_result = Throw (TypeError CANNOT_CONVERT).
Proof.
  split; [reflexivity|].
  apply (toCsv_rethrows unprintable_url_result (TypeError CANNOT_CONVERT) eq_refl).
Defined.

(** An exception raised while the table is
    built from the data is caught and gives the conversion-error table. *)
Lemma toCsv_conversion_error_sample :
  toCsv (ok_result (Obj [("a", unprintable)]))
  = Return (join (str1 LF)
              [ok_meta; "error,code,message";
               "CSV Conversion Error,CONVERSION_ERROR,Cannot convert object to primitive value"]).
Proof. reflexivity. Qed.

(** C9 as the code has it: for a success-shaped record, a non-empty
    string or a non-zero number as data gives the table with header value
    and the scalar as its one cell; absent data, an empty array and an
    empty object give the default table with header status,method,url and
    those three values. *)
Theorem toCsv_scalar_or_default (result : object) (meta : string)
    (Hshape : success_shaped result)
    (Hmeta : generateMetadataRow result = Return meta) :
  (forall s, s <> "" -> get result "data" = Str s ->
     toCsv result
     = Return (join (str1 LF) [meta; "value"; escape_string s])) /\
  (forall z, z <> 0%Z -> get result "data" = Num (Int z) ->
     toCsv result
     = Return (join (str1 LF) [meta; "value"; number_to_string (Int z)])) /\
  (get result "data" = Undefined \/ get result "data" = Null \/
   get result "data" = Arr [] \/ get result "data" = Obj [] ->
     toCsv result
     = Return (join (str1 LF)
                 [meta; "status,method,url";
                  cell (get result "status") ++ str1 COMMA
                  ++ cell (get result "method") ++ str1 COMMA
                  ++ cell (get result "url")])).
Proof.
  pose proof (success_shaped_no_error _ Hshape) as He.
  repeat split.
  - intros s Hs Hd.
    rewrite (toCsv_data_branch result meta ("value" ++ str1 LF ++ escape_string s)
               He Hmeta).
    + reflexivity.
    + unfold dataCsvContent. rewrite Hd. cbn [truthy isArray is_object].
      destruct (String.eqb_spec s ""); [contradiction|].
      cbn [negb]. rewrite escapeCsvValue_Str. reflexivity.
  - intros z Hz Hd.
    rewrite (toCsv_data_branch result meta
               ("value" ++ str1 LF ++ number_to_string (Int z)) He Hmeta).
    + reflexivity.
    + unfold dataCsvContent. rewrite Hd. cbn [truthy isArray is_object].
      destruct (Z.eqb_spec z 0); [contradiction|].
      cbn [negb]. pose proof (cell_number z) as Hc. unfold cell in Hc.
      destruct (escapeCsvValue (Num (Int z))) as [c|x] eqn:Hesc.
      * subst c. reflexivity.
      * unfold escapeCsvValue in Hesc. cbn in Hesc.
        destruct (_ || _) in Hesc; discriminate.
  - intros Hd.
    rewrite (toCsv_data_branch result meta "" He Hmeta).
    + reflexivity.
    + unfold dataCsvContent.
      destruct Hd as [Hd|[Hd|[Hd|Hd]]]; rewrite Hd; reflexivity.
Qed.

Lemma toCsv_scalar_or_default_witness :
  toCsv (ok_result (Str "hello")) = Return (join (str1 LF) [ok_meta; "value"; "hello"]) /\
  toCsv (ok_result (Num (Int 5))) = Return (join (str1 LF) [ok_meta; "value"; "5"]) /\
  toCsv (ok_result (Arr []))
  = Return (join (str1 LF) [ok_meta; "status,method,url"; "200,GET,http://h/p"]).
Proof.
  split; [|split].
  - destruct (toCsv_scalar_or_default (ok_result (Str "hello")) ok_meta
                (ok_result_shape _) eq_refl) as (Hs & _ & _).
    apply (Hs "hello"); [discriminate | reflexivity].
  - destruct (toCsv_scalar_or_default (ok_result (Num (Int 5))) ok_meta
                (ok_result_shape _) eq_refl) as (_ & Hn & _).
    apply (Hn 5%Z); [discriminate | reflexivity].
  - destruct (toCsv_scalar_or_default (ok_result (Arr [])) ok_meta
                (ok_result_shape _) eq_refl) as (_ & _ & Hd).
    apply Hd. right. right. left. reflexivity.
Defined.

(** Counterexample to C9 as stated: the number 0 (like the empty string) is a scalar
    body, and the output is the default table, not the value table. *)
Lemma toCsv_zero_body :
  success_shaped (ok_result (Num (Int 0))) /\
  get (ok_result (Num (Int 0))) "data" = Num (Int 0) /\
  toCsv (ok_result (Num (Int 0)))
  = Return (join (str1 LF) [ok_meta; "status,method,url"; "200,GET,http://h/p"]) /\
  toCsv (ok_result (Num (Int 0)))
  <> Return (join (str1 LF) [ok_meta; "value"; "0"]) /\
  toCsv (ok_result (Str ""))
  <> Return (join (str1 LF) [ok_meta; "value"; ""]).
Proof.
  split; [apply ok_result_shape|].
  repeat split; discriminate.
Qed.

Lemma filter_objects_plain (elems : list value) :
  forallb (fun v => negb (isArray v)) elems = true ->
  filter is_object elems = filter is_mapping elems.
Proof.
  intros H. apply filter_ext_in. intros v Hv.
  rewrite forallb_forall in H. specialize (H v Hv).
  destruct v; try reflexivity; discriminate H.
Qed.

(** C10: in the array projection the elements that are not objects give
    no key to the header and no row: the string returned, and with it the
    document of [toCsv], is the header row followed by as many data rows as
    there are object-typed elements, at most the length of the array and
    fewer in the mixed sample; when no element is a nested array these
    rows are exactly the rows of the plain objects, in order.  An array
    without any object that has a key gives the empty string, and [toCsv]
    then emits the default table. *)
Theorem array_rows_of_object_elements (result : object) (elems : list value)
    (meta : string)
    (Herror : truthy (get result "error") = false)
    (Hmeta : generateMetadataRow result = Return meta)
    (Hdata : get result "data" = Arr elems)
    (Hcells : forallb (fun obj => negb (is_object obj)
                         || row_renders (collect_headers elems) obj) elems = true) :
  collect_headers elems = key_union (filter is_object elems) /\
  (collect_headers elems <> [] ->
   exists rows,
     arrayCsvRows (Arr elems)
     = Return (Some (header_row (collect_headers elems) :: rows)) /\
     convertArrayOfObjectsToCsv (Arr elems)
     = Return (join (str1 LF) (header_row (collect_headers elems) :: rows)) /\
     toCsv result
     = Return (meta ++ str1 LF
               ++ join (str1 LF) (header_row (collect_headers elems) :: rows)) /\
     List.length rows = List.length (filter is_object elems) /\
     (List.length rows <= List.length elems)%nat /\
     (forallb (fun v => negb (isArray v)) elems = true ->
      rows = map (row_of (collect_headers elems)) (filter is_mapping elems))) /\
  ((forall v, In v elems -> is_object v = true -> keys v = []) ->
   convertArrayOfObjectsToCsv (Arr elems) = Return "" /\
   toCsv result = Return (meta ++ str1 LF ++ default_table result)) /\
  convertArrayOfObjectsToCsv (Arr mixed_data) = Return (join (str1 LF) ["x"; "1"]) /\
  toCsv (ok_result (Arr mixed_data)) = Return (join (str1 LF) [ok_meta; "x"; "1"]) /\
  (List.length (filter is_object mixed_data) < List.length mixed_data)%nat.
Proof.
  split; [apply collect_headers_union|].
  split; [|split; [|split; [reflexivity | split; [reflexivity | cbn; lia]]]].
  - intros Hne.
    exists (map (row_of (collect_headers elems)) (filter is_object elems)).
    destruct (convertArrayOfObjectsToCsv_pure elems Hne Hcells) as [Hconv Hnz].
    split; [apply (arrayCsvRows_pure _ Hne Hcells)|].
    split; [exact Hconv|].
    split.
    { rewrite (toCsv_data_branch result meta _ Herror Hmeta
                 (eq_trans (dataCsvContent_array _ _ Hdata) Hconv)).
      rewrite Hnz. reflexivity. }
    rewrite length_map.
    split; [reflexivity|]. split; [apply filter_length_le|].
    intros Hplain. rewrite (filter_objects_plain _ Hplain). reflexivity.
  - intros Hnone. pose proof (key_union_no_keys _ Hnone) as Hnil.
    pose proof (convertArrayOfObjectsToCsv_no_keys _ Hnil) as Hconv.
    split; [exact Hconv|].
    rewrite (toCsv_data_branch result meta "" Herror Hmeta).
    + reflexivity.
    + rewrite (dataCsvContent_array _ _ Hdata). exact Hconv.
Qed.

Lemma array_rows_of_object_elements_witness :
  (exists rows,
     convertArrayOfObjectsToCsv (Arr mixed_data)
     = Return (join (str1 LF) ("x" :: rows)) /\
     toCsv (ok_result (Arr mixed_data))
     = Return (ok_meta ++ str1 LF ++ join (str1 LF) ("x" :: rows)) /\
     rows = ["1"]) /\
  toCsv (ok_result (Arr [Null; Num (Int 3); Obj []]))
  = Return (join (str1 LF) [ok_meta; "status,method,url"; "200,GET,http://h/p"]).
Proof.
  split.
  - destruct (array_rows_of_object_elements (ok_result (Arr mixed_data)) mixed_data
                ok_meta eq_refl eq_refl eq_refl eq_refl) as (_ & Hrows & _).
    destruct Hrows as (rows & _ & Hconv & Hcsv & _ & _ & Hplain); [discriminate|].
    exists rows. split; [exact Hconv|]. split; [exact Hcsv|].
    exact (Hplain eq_refl).
  - destruct (array_rows_of_object_elements
                (ok_result (Arr [Null; Num (Int 3); Obj []]))
                [Null; Num (Int 3); Obj []]
                ok_meta eq_refl eq_refl eq_refl eq_refl) as (_ & _ & Hnone & _).
    apply Hnone. intros v [<-|[<-|[<-|[]]]]; intros H; try discriminate H; reflexivity.
Defined.

(** ** Properties of the handler *)

Lemma validateArgs_object (a : object) : validateArgs (Obj a) = Return a.
Proof. reflexivity. Qed.

Lemma attempt_calls_network (w : world) (request : http_request)
    (method url requestData format : value) :
  exists rest r,
    attempt w request method url requestData format
    = (NetworkCall request :: rest, r).
Proof.
  unfold attempt, handleErrorWithLogging.
  destruct (send w request) as [reply|error].
  - destruct (buildContent _ format) as [r|e]; eauto.
  - eauto.
Qed.

Lemma handler_events (w : world) (name : string) (args : value)
    (events : list event) (c : completion tool_result) :
  dispatch w name args = (events, c) ->
  exists rest, fst (handler w name args) = List.app events rest.
Proof.
  intros H. unfold handler. rewrite H. destruct c; simpl.
  - exists []. rewrite app_nil_r. reflexivity.
  - eauto.
Qed.

(** C5, where the code departs from it: [validateArgs] does not consult
    the schema, so an invocation whose arguments lack [url] goes on to
    call the HTTP client, with an undefined URL. *)
Theorem missing_url_calls_network (w : world) (name : string) (a : object)
    (Hname : In name ["api_get"; "api_post"; "api_put"; "api_delete"] \/
             (name = "api_request" /\ exists m, get a "method" = Str m))
    (Hurl : has_own "url" a = false) :
  exists request rest,
    fst (handler w name (Obj a)) = NetworkCall request :: rest /\
    request_url request = Undefined.
Proof.
  assert (Hu : get a "url" = Undefined).
  { unfold get. unfold has_own in Hurl.
    destruct (lookup "url" a); [discriminate | reflexivity]. }
  assert (Hd : exists request events c,
             dispatch w name (Obj a) = (NetworkCall request :: events, c) /\
             request_url request = Undefined).
  { destruct Hname as [Hname | [-> (m & Hm)]].
    - simpl in Hname.
      destruct Hname as [<-|[<-|[<-|[<-|[]]]]];
        unfold dispatch; cbn [String.eqb Ascii.eqb Bool.eqb];
        rewrite validateArgs_object, Hu;
        match goal with
        | |- context [attempt ?w ?rq ?m ?u ?d ?f] =>
            destruct (attempt_calls_network w rq m u d f) as (rest & r & E);
            rewrite E; exists rq, rest, r; split; reflexivity
        end.
    - unfold dispatch; cbn [String.eqb Ascii.eqb Bool.eqb].
      rewrite validateArgs_object, Hu, Hm. cbn [toLowerCase].
      match goal with
      | |- context [attempt ?w ?rq ?m ?u ?d ?f] =>
          destruct (attempt_calls_network w rq m u d f) as (rest & r & E);
          rewrite E; exists rq, rest, r; split; reflexivity
      end. }
  destruct Hd as (request & events & c & Hdisp & Hreq).
  destruct (handler_events _ _ _ _ _ Hdisp) as (rest & Hev).
  exists request, (List.app events rest). split; [exact Hev | exact Hreq].
Qed.

Lemma missing_url_calls_network_witness :
  exists request rest,
    fst (handler refusing_world "api_get" (Obj [])) = NetworkCall request :: rest /\
    request_url request = Undefined.
Proof.
  apply (missing_url_calls_network refusing_world "api_get" []).
  - left. simpl. left. reflexivity.
  - reflexivity.
Defined.

(** The invocation without [url] is answered like any failed call: the
    error flag is not set and the failure is logged as a request failure. *)
Lemma missing_url_sample :
  handler refusing_world "api_get" (Obj [])
  = ([NetworkCall (simple_request "get" Undefined Undefined Undefined Undefined);
      LogAppend RequestFailure],
     {| text :=
          JsonText (Obj [("success", Boolean false); ("method", Str "GET");
                         ("url", Undefined);
                         ("error", Str "connect ECONNREFUSED 127.0.0.1:80");
                         ("code", Str "ECONNREFUSED")]);
        isError := false |}).
Proof. reflexivity. Qed.

(** Without [method] the generic operation
    stops before the client is called and answers with the error flag. *)
Lemma missing_method_no_network (w : world) (a : object) :
  has_own "method" a = false ->
  network_calls (fst (handler w "api_request" (Obj a))) = [] /\
  isError (snd (handler w "api_request" (Obj a))) = true.
Proof.
  intros H.
  assert (Hm : get a "method" = Undefined).
  { unfold get. unfold has_own in H.
    destruct (lookup "method" a); [discriminate | reflexivity]. }
  unfold handler, dispatch; cbn [String.eqb Ascii.eqb Bool.eqb].
  rewrite validateArgs_object, Hm. split; reflexivity.
Qed.

(** Arguments that are not an object are refused before any call. *)
Lemma non_object_arguments_no_network (w : world) (name : string) (args : value) :
  (forall a, or_else args (Obj []) <> Obj a) ->
  network_calls (fst (handler w name args)) = [] /\
  isError (snd (handler w name args)) = true.
Proof.
  intros H.
  assert (V : exists e, validateArgs args = Throw e).
  { unfold validateArgs. destruct (or_else args (Obj [])) eqn:E; eauto.
    exfalso. exact (H _ eq_refl). }
  destruct V as (e & V).
  unfold handler, dispatch.
  repeat match goal with
         | |- context [if ?b then _ else _] => destruct b
         end; rewrite ?V; split; reflexivity.
Qed.

(** Reached through the handler: with [format] csv and an [unprintable]
    url the exception leaves [toCsv] on both paths and ends in the outer
    [catch]. *)
Lemma unprintable_url_sample :
  snd (handler refusing_world "api_get"
         (Obj [("url", unprintable); ("format", Str "csv")]))
  = {| text := JsonText (Obj [("success", Boolean false);
                              ("error", Str CANNOT_CONVERT);
                              ("tool", Str "api_get")]);
       isError := true |}.
Proof. reflexivity. Qed.

(** *** Where an exception of [toCsv] can come from *)

Lemma ToString_Throw : forall (v : value) (e : exn),
  ToString v = Throw e -> e = TypeError CANNOT_CONVERT.
Proof.
  fix IH 1. intros [| |b|n|s|l|o|f] e; simpl; try (destruct b); try discriminate.
  - intros H. apply (fun P => P H). clear H.
    match goal with |- (bind (?F l) _ = _) -> _ => set (elements := F) end.
    assert (Hl : forall x, elements l = Throw x -> x = TypeError CANNOT_CONVERT).
    { induction l as [|y l IHl]; simpl; [discriminate|].
      intros x. destruct (is_nullish y); simpl.
      - destruct (elements l) eqn:E; simpl; [discriminate|].
        intros [= <-]. apply IHl. reflexivity.
      - destruct (ToString y) eqn:Ey; simpl.
        + destruct (elements l) eqn:E; simpl; [discriminate|].
          intros [= <-]. apply IHl. reflexivity.
        + intros [= <-]. apply (IH y). exact Ey. }
    destruct (elements l) eqn:E; simpl; [discriminate|].
    intros [= <-]. apply Hl. reflexivity.
  - destruct (has_own "toString" o); [|discriminate].
    intros [= <-]. reflexivity.
Qed.

Lemma ToString_scalar (v : value) :
  is_object v = false -> exists s, ToString v = Return s.
Proof.
  destruct v as [| |[|]|n|s|l|o|f]; simpl; try discriminate; eauto.
Qed.

(** A record whose metadata fields are scalars, as the data model types
    them, always has a metadata line, so [toCsv] returns on it. *)
Lemma toCsv_returns_on_scalar_metadata (result : object) :
  is_object (get result "status") = false ->
  is_object (get result "method") = false ->
  is_object (get result "url") = false ->
  is_object (get result "responseTime") = false ->
  is_object (get result "error") = false ->
  exists s, toCsv result = Return s.
Proof.
  intros Hs Hm Hu Ht He.
  assert (Hor : forall v, is_object v = false ->
                          exists s, ToString (or_else v NA) = Return s).
  { intros v Hv. unfold or_else. destruct (truthy v); [|simpl; eauto].
    apply ToString_scalar, Hv. }
  assert (Hmeta : exists meta, generateMetadataRow result = Return meta).
  { unfold generateMetadataRow.
    destruct (Hor _ Hs) as (s & ->). destruct (Hor _ Hm) as (m & ->).
    destruct (Hor _ Hu) as (u & ->). destruct (Hor _ Ht) as (t & ->).
    cbn [bind].
    destruct (truthy (get result "error")); [|cbn; eauto].
    destruct (ToString_scalar _ He) as (e & ->). cbn; eauto. }
  destruct Hmeta as (meta & Hmeta).
  pose proof (toCsv_returns result meta Hmeta) as H.
  destruct (toCsv_body result); eauto.
Qed.

Lemma generateMetadataRow_unprintable_url (result : object) :
  get result "url" = unprintable ->
  generateMetadataRow result = Throw (TypeError CANNOT_CONVERT).
Proof.
  intros Hu. unfold generateMetadataRow. rewrite Hu.
  destruct (ToString (or_else (get result "status") NA)) as [s|e] eqn:Es;
    [|rewrite (ToString_Throw _ _ Es); reflexivity].
  destruct (ToString (or_else (get result "method") NA)) as [m|e] eqn:Em;
    [|rewrite (ToString_Throw _ _ Em); reflexivity].
  reflexivity.
Qed.

(** Reached through the handler whatever the network answers: with
    [format] csv and an [unprintable] url the exception leaves [toCsv] on
    the success path and on the failure path, and ends in the outer
    [catch]. *)
Lemma unprintable_url_reaches_outer_catch (w : world) :
  snd (handler w "api_get" (Obj [("url", unprintable); ("format", Str "csv")]))
  = {| text := JsonText (Obj [("success", Boolean false);
                              ("error", Str CANNOT_CONVERT);
                              ("tool", Str "api_get")]);
       isError := true |}.
Proof.
  assert (Hok : forall r,
             toCsv (formatApiResponse r (Str "GET") unprintable Null)
             = Throw (TypeError CANNOT_CONVERT)).
  { intros r. apply toCsv_metadata_Throw, generateMetadataRow_unprintable_url.
    reflexivity. }
  assert (Hko : forall f,
             toCsv (formatErrorResponse f (Str "GET") unprintable Null)
             = Throw (TypeError CANNOT_CONVERT)).
  { intros f. apply toCsv_metadata_Throw, generateMetadataRow_unprintable_url.
    unfold formatErrorResponse. destruct (error_response f); reflexivity. }
  unfold handler, dispatch. cbn [String.eqb Ascii.eqb Bool.eqb].
  rewrite validateArgs_object.
  change (get [("url", unprintable); ("format", Str "csv")] "url") with unprintable.
  change (or_else (get [("url", unprintable); ("format", Str "csv")] "format")
                  (Str "json")) with (Str "csv").
  unfold attempt, handleErrorWithLogging, buildContent.
  cbn [strict_eq_string String.eqb Ascii.eqb Bool.eqb].
  destruct (send w _) as [reply|error].
  - rewrite Hok. cbn [bind]. rewrite Hko. reflexivity.
  - rewrite Hko. reflexivity.
Qed.

(** * Further properties of the file *)

(** ** Strings and cells *)

Lemma list_ascii_append (a b : string) :
  list_ascii_of_string (a ++ b)
  = List.app (list_ascii_of_string a) (list_ascii_of_string b).
Proof. induction a as [|c a IH]; simpl; [reflexivity | rewrite IH; reflexivity]. Qed.

Lemma list_ascii_inj (a b : string) :
  list_ascii_of_string a = list_ascii_of_string b -> a = b.
Proof.
  intros H. rewrite <- (string_of_list_ascii_of_string a),
                    <- (string_of_list_ascii_of_string b), H. reflexivity.
Qed.

Lemma append_inv_tail (a b t : string) : a ++ t = b ++ t -> a = b.
Proof.
  intros H. apply list_ascii_inj.
  apply (f_equal list_ascii_of_string) in H.
  rewrite !list_ascii_append in H. exact (app_inv_tail _ _ _ H).
Qed.

Lemma replace_quotes_inj (s1 s2 : string) :
  replace_quotes s1 = replace_quotes s2 -> s1 = s2.
Proof.
  revert s2. induction s1 as [|a1 r1 IH]; intros [|a2 r2]; simpl.
  - reflexivity.
  - destruct (Ascii.eqb a2 DQUOTE); discriminate.
  - destruct (Ascii.eqb a1 DQUOTE); discriminate.
  - destruct (Ascii.eqb_spec a1 DQUOTE) as [E1|E1];
      destruct (Ascii.eqb_spec a2 DQUOTE) as [E2|E2]; intros H.
    + inversion H as [H']. subst. f_equal. apply IH, H'.
    + inversion H. subst. contradiction.
    + inversion H. subst. contradiction.
    + inversion H. subst. f_equal. apply IH. assumption.
Qed.

Lemma includes_count (s : string) (c : ascii) :
  includes s c = false <-> count_char c s = 0%nat.
Proof.
  induction s as [|a s IH]; simpl; [tauto|].
  destruct (Ascii.eqb a c); simpl; [split; discriminate | exact IH].
Qed.

Lemma count_char_append (c : ascii) (a b : string) :
  count_char c (a ++ b) = (count_char c a + count_char c b)%nat.
Proof. induction a as [|x a IH]; simpl; [reflexivity | rewrite IH; lia]. Qed.

Lemma count_replace_quotes (s : string) :
  count_char DQUOTE (replace_quotes s) = (2 * count_char DQUOTE s)%nat.
Proof.
  induction s as [|a s IH]; simpl; [reflexivity|].
  destruct (Ascii.eqb a DQUOTE) eqn:E; simpl; rewrite ?E, IH; simpl; lia.
Qed.

(** The escaping of strings loses nothing: two strings with the same
    cell are the same string. *)
Theorem escapeCsvValue_string_injective (s1 s2 : string)
    (Hcell : escapeCsvValue (Str s1) = escapeCsvValue (Str s2)) :
  s1 = s2.
Proof.
  rewrite !escapeCsvValue_Str in Hcell. inversion Hcell as [H]. clear Hcell.
  unfold escape_string in H.
  destruct (includes s1 COMMA || includes s1 LF || includes s1 DQUOTE) eqn:T1;
    destruct (includes s2 COMMA || includes s2 LF || includes s2 DQUOTE) eqn:T2.
  - unfold str1 in H. simpl in H. inversion H as [H'].
    apply replace_quotes_inj. exact (append_inv_tail _ _ _ H').
  - subst s2. apply orb_false_iff in T2. destruct T2 as [_ T2].
    simpl in T2. discriminate T2.
  - subst s1. apply orb_false_iff in T1. destruct T1 as [_ T1].
    simpl in T1. discriminate T1.
  - exact H.
Qed.

Lemma escapeCsvValue_string_injective_witness :
  "a,b" = "a,b".
Proof.
  apply (escapeCsvValue_string_injective "a,b" "a,b"). reflexivity.
Defined.

(** Every cell is well-formed CSV: it holds an even number of double
    quotes, and when it holds a comma or a line feed it starts with a
    double quote. *)
Theorem escapeCsvValue_cell_well_formed (v : value) (c : string)
    (Hcell : escapeCsvValue v = Return c) :
  Nat.even (count_char DQUOTE c) = true /\
  ((0 < count_char COMMA c + count_char LF c)%nat ->
   exists rest, c = String DQUOTE rest).
Proof.
  unfold escapeCsvValue in Hcell.
  destruct (is_nullish v); [inversion Hcell; subst; split; [reflexivity | simpl; lia]|].
  apply bind_Return in Hcell. destruct Hcell as (s & _ & Hc).
  destruct (includes s COMMA || includes s LF || includes s DQUOTE) eqn:T;
    inversion Hc; subst c; clear Hc.
  - split.
    + assert (Q : count_char DQUOTE (str1 DQUOTE) = 1%nat) by reflexivity.
      apply Nat.even_spec. exists (count_char DQUOTE s + 1)%nat.
      change (String DQUOTE (replace_quotes s ++ str1 DQUOTE))
        with (str1 DQUOTE ++ (replace_quotes s ++ str1 DQUOTE)).
      rewrite !count_char_append, Q, count_replace_quotes. lia.
    + intros _. eexists. reflexivity.
  - apply orb_false_iff in T. destruct T as [T Tq].
    apply orb_false_iff in T. destruct T as [Tc Tl].
    apply includes_count in Tq, Tc, Tl. rewrite Tq, Tc, Tl.
    split; [reflexivity | simpl; lia].
Qed.

Lemma escapeCsvValue_cell_well_formed_witness :
  Nat.even (count_char DQUOTE example_cell_out) = true.
Proof.
  apply (escapeCsvValue_cell_well_formed (Str example_cell_in) example_cell_out eq_refl).
Defined.

(** ** The normaliser: the echoed request data *)

(** Both normalisers echo the request data exactly when it is truthy:
    a body such as 0, false or the empty string is sent but not echoed. *)
Theorem requestData_echoed_iff_truthy (r : response) (e : failure)
    (method url requestData : value) :
  let ok := formatApiResponse r method url requestData in
  let ko := formatErrorResponse e method url requestData in
  (has ok "requestData" <-> truthy requestData = true) /\
  (has ko "requestData" <-> truthy requestData = true) /\
  get ok "requestData" = (if truthy requestData then requestData else Undefined) /\
  get ko "requestData" = (if truthy requestData then requestData else Undefined).
Proof.
  unfold formatApiResponse, formatErrorResponse, has, has_own.
  destruct (error_response e); destruct (truthy requestData); cbn;
    intuition congruence.
Qed.

(** ** The header of the array projection *)

Lemma NoDup_collect_headers (data : list value) : NoDup (collect_headers data).
Proof. rewrite collect_headers_union. apply NoDup_first_seen. Qed.

(** Columns are only ever appended: the header computed for a longer
    array starts with the header of the shorter one, has no duplicate
    column, and has a column exactly for the keys of the object elements. *)
Theorem collect_headers_stable (data more : list value) :
  (exists added,
     collect_headers (List.app data more)
     = List.app (collect_headers data) added) /\
  NoDup (collect_headers data) /\
  (forall k, In k (collect_headers data) <->
             exists obj, In obj data /\ is_object obj = true /\ In k (keys obj)).
Proof.
  split; [|split].
  - unfold collect_headers. rewrite fold_left_app.
    rewrite (collect_headers_fold more), fold_set_add. eauto.
  - apply NoDup_collect_headers.
  - intros k. rewrite collect_headers_union, In_key_union. split.
    + intros (obj & Hobj & Hk). apply filter_In in Hobj.
      destruct Hobj as [Hin Ho]. eauto.
    + intros (obj & Hin & Ho & Hk). exists obj. split; [|exact Hk].
      apply filter_In. split; assumption.
Qed.

(** ** The single-object projection *)

Lemma append_str1_not_empty (a : string) (c : ascii) (b : string) :
  (a ++ str1 c ++ b =? "") = false.
Proof. unfold str1. cbn [append]. apply append_cons_not_empty. Qed.

Lemma includes_append_str1 (a : string) (c : ascii) (b : string) :
  includes (a ++ str1 c ++ b) c = true.
Proof.
  unfold str1. cbn [append]. induction a as [|x a IH]; simpl.
  - rewrite Ascii.eqb_refl. reflexivity.
  - rewrite IH. apply orb_true_r.
Qed.

Lemma lookup_In (props : object) :
  NoDup (map fst props) ->
  forall k v, In (k, v) props -> lookup k props = Some v.
Proof.
  induction props as [|[k0 v0] props IH]; intros Hnd k v Hin; [contradiction|].
  inversion Hnd as [|? ? Hk0 Hnd']; subst. simpl.
  destruct Hin as [E|Hin].
  - inversion E; subst. rewrite String.eqb_refl. reflexivity.
  - destruct (String.eqb_spec k0 k) as [E|E].
    + subst k0. exfalso. apply Hk0. apply in_map_iff. exists (k, v). auto.
    + apply IH; assumption.
Qed.

Lemma object_row_values (props : object) :
  NoDup (map fst props) ->
  map (fun h => cell (get_prop (Obj props) h)) (map fst props)
  = map (fun kv => cell (snd kv)) props.
Proof.
  intros Hnd. rewrite map_map. apply map_ext_in. intros [k v] Hin.
  simpl. rewrite (lookup_In props Hnd k v Hin). reflexivity.
Qed.

Lemma convertObjectToCsv_pure (props : object) :
  props <> [] ->
  forallb (fun kv => renders (snd kv)) props = true ->
  NoDup (map fst props) ->
  convertObjectToCsv (Obj props)
  = Return (header_row (map fst props) ++ str1 LF
            ++ join (str1 COMMA) (map (fun kv => cell (snd kv)) props)).
Proof.
  intros Hne Hr Hnd. unfold convertObjectToCsv. cbn [is_object negb keys].
  destruct props as [|kv props]; [contradiction|].
  cbn [map List.length Nat.eqb].
  change (Str (fst kv) :: map Str (map fst props))
    with (map Str (map fst (kv :: props))).
  rewrite mapM_header. cbn [bind].
  change (fst kv :: map fst props) with (map fst (kv :: props)).
  rewrite (mapM_pure _ (fun h => cell (get_prop (Obj (kv :: props)) h))).
  - cbn [bind]. rewrite (object_row_values _ Hnd). reflexivity.
  - intros h Hh. apply renders_cell.
    apply in_map_iff in Hh. destruct Hh as ([k v] & <- & Hin).
    simpl fst. unfold get_prop. rewrite (lookup_In _ Hnd k v Hin).
    rewrite forallb_forall in Hr. exact (Hr _ Hin).
Qed.

(** A success-shaped record whose data is one object with at least one
    key is rendered as two rows after the comment line: the object's keys
    in their own order, then the values in the same order. *)
Theorem toCsv_single_object (result : object) (props : object) (meta : string)
    (Hshape : success_shaped result)
    (Hmeta : generateMetadataRow result = Return meta)
    (Hdata : get result "data" = Obj props)
    (Hkeys : props <> [])
    (Hunique : NoDup (map fst props))
    (Hcells : forallb (fun kv => renders (snd kv)) props = true) :
  toCsv result
  = Return (join (str1 LF)
              [meta;
               join (str1 COMMA) (map (fun kv => escape_string (fst kv)) props);
               join (str1 COMMA) (map (fun kv => cell (snd kv)) props)]).
Proof.
  pose proof (convertObjectToCsv_pure props Hkeys Hcells Hunique) as Hconv.
  assert (Hcontent : dataCsvContent result = convertObjectToCsv (Obj props)).
  { unfold dataCsvContent. rewrite Hdata. reflexivity. }
  rewrite Hconv in Hcontent.
  rewrite (toCsv_data_branch result meta _
             (success_shaped_no_error _ Hshape) Hmeta Hcontent).
  rewrite append_str1_not_empty.
  unfold header_row. rewrite map_map. reflexivity.
Qed.

Lemma toCsv_single_object_witness :
  toCsv (ok_result (Obj [("a", Num (Int 1)); ("b", Str "x,y")]))
  = Return (join (str1 LF)
              [ok_meta; "a,b"; "1," ++ str1 DQUOTE ++ "x,y" ++ str1 DQUOTE]).
Proof.
  apply (toCsv_single_object
           (ok_result (Obj [("a", Num (Int 1)); ("b", Str "x,y")]))
           [("a", Num (Int 1)); ("b", Str "x,y")] ok_meta
           (ok_result_shape _) eq_refl eq_refl).
  - discriminate.
  - repeat constructor; simpl; intuition discriminate.
  - reflexivity.
Defined.

(** ** The shape of every CSV document *)

Lemma push_rows_length (hs : list string) (data : list value) :
  forall acc rows,
    push_rows hs data acc = Return rows ->
    List.length rows
    = (List.length acc + List.length (filter is_object data))%nat.
Proof.
  induction data as [|obj data IH]; intros acc rows H; simpl in *.
  - inversion H. lia.
  - destruct (is_object obj).
    + apply bind_Return in H. destruct H as (row & _ & H).
      rewrite (IH _ _ H), length_app. simpl. lia.
    + exact (IH _ _ H).
Qed.

Lemma arrayCsvRows_two_rows (data : value) (rows : list string) :
  arrayCsvRows data = Return (Some rows) ->
  exists h r rest, rows = h :: r :: rest.
Proof.
  unfold arrayCsvRows. destruct data as [| | | | |elems| |]; try discriminate.
  destruct (List.length elems =? 0)%nat; [discriminate|].
  destruct (List.length (collect_headers elems) =? 0)%nat eqn:Hh; [discriminate|].
  intros H. apply bind_Return in H. destruct H as (header & _ & H).
  apply bind_Return in H. destruct H as (csvRows & Hpush & H).
  inversion H; subst csvRows. clear H.
  apply push_rows_length in Hpush. simpl in Hpush.
  assert (Hne : collect_headers elems <> []).
  { intros E. rewrite E in Hh. discriminate. }
  apply collect_headers_nil_inv in Hne.
  destruct (filter is_object elems) as [|o os]; [contradiction|].
  destruct rows as [|h [|r rest]]; simpl in Hpush; try lia. eauto.
Qed.

Lemma dataCsvContent_shape (result : object) (content : string) :
  dataCsvContent result = Return content ->
  content = "" \/ includes content LF = true.
Proof.
  unfold dataCsvContent. destruct (truthy (get result "data"));
    [|intros H; inversion H; auto].
  destruct (isArray (get result "data")).
  - unfold convertArrayOfObjectsToCsv. intros H.
    apply bind_Return in H. destruct H as ([rows|] & Hrows & H);
      inversion H; auto.
    destruct (arrayCsvRows_two_rows _ _ Hrows) as (h & r & rest & ->).
    right. apply (includes_append_str1 h LF).
  - destruct (is_object (get result "data")).
    + unfold convertObjectToCsv. cbn [negb].
      destruct (is_object (get result "data")); cbn [negb];
        [|intros H; inversion H; auto].
      destruct (List.length (keys (get result "data")) =? 0)%nat;
        [intros H; inversion H; auto|].
      intros H. apply bind_Return in H. destruct H as (header & _ & H).
      apply bind_Return in H. destruct H as (row & _ & H).
      inversion H. right. apply (includes_append_str1 _ LF).
    + intros H. apply bind_Return in H. destruct H as (v & _ & H).
      inversion H. right. apply (includes_append_str1 "value" LF).
Qed.

Lemma generateMetadataRow_prefix (result : object) (meta : string) :
  generateMetadataRow result = Return meta ->
  exists rest, meta = "# status:" ++ rest.
Proof.
  unfold generateMetadataRow. intros H.
  apply bind_Return in H. destruct H as (s & _ & H).
  apply bind_Return in H. destruct H as (m & _ & H).
  apply bind_Return in H. destruct H as (u & _ & H).
  apply bind_Return in H. destruct H as (t & _ & H).
  apply bind_Return in H. destruct H as (parts & Hparts & H).
  inversion H. clear H.
  destruct (truthy (get result "error")).
  - apply bind_Return in Hparts. destruct Hparts as (e & _ & Hparts).
    inversion Hparts. cbn. eexists. reflexivity.
  - inversion Hparts. cbn. eexists. reflexivity.
Qed.

Lemma Return_inj {A} (a b : A) : Return a = Return b -> a = b.
Proof. intros H. injection H as H. exact H. Qed.

Lemma toCsv_Return_metadata (result : object) (document : string) :
  toCsv result = Return document ->
  exists meta table,
    generateMetadataRow result = Return meta /\
    document = meta ++ str1 LF ++ table /\
    includes table LF = true.
Proof.
  intros Hdoc. unfold toCsv, try_catch in Hdoc.
  destruct (toCsv_body result) as [s0|e] eqn:B.
  - apply Return_inj in Hdoc. subst s0. unfold toCsv_body in B.
    destruct (truthy (get result "error")).
    + unfold errorCsv in B.
      apply bind_Return in B. destruct B as (meta & Hm & B).
      apply bind_Return in B. destruct B as (e1 & _ & B).
      apply bind_Return in B. destruct B as (c & _ & B).
      apply bind_Return in B. destruct B as (e2 & _ & B).
      apply Return_inj in B. subst document.
      exists meta,
        ("error,code,message" ++ str1 LF
         ++ (e1 ++ str1 COMMA ++ c ++ str1 COMMA ++ e2)).
      split; [exact Hm|]. split; [reflexivity|].
      apply (includes_append_str1 _ LF).
    + apply bind_Return in B. destruct B as (meta & Hm & B).
      apply bind_Return in B. destruct B as (content & Hc & B).
      apply bind_Return in B. destruct B as (content' & Hc' & B).
      apply Return_inj in B. subst document.
      exists meta, content'. split; [exact Hm|]. split; [reflexivity|].
      destruct (String.eqb_spec content "") as [E|E].
      * unfold defaultCsvContent in Hc'.
        apply bind_Return in Hc'. destruct Hc' as (s & _ & Hc').
        apply bind_Return in Hc'. destruct Hc' as (m & _ & Hc').
        apply bind_Return in Hc'. destruct Hc' as (u & _ & Hc').
        apply Return_inj in Hc'. subst content'.
        apply (includes_append_str1 _ LF).
      * apply Return_inj in Hc'. subst content'.
        destruct (dataCsvContent_shape _ _ Hc); [contradiction | assumption].
  - unfold fallbackCsv in Hdoc.
    apply bind_Return in Hdoc. destruct Hdoc as (meta & Hm & Hdoc).
    apply bind_Return in Hdoc. destruct Hdoc as (m & _ & Hdoc).
    apply Return_inj in Hdoc. subst document.
    exists meta,
      ("error,code,message" ++ str1 LF
       ++ ("CSV Conversion Error,CONVERSION_ERROR," ++ m)).
    split; [exact Hm|]. split; [reflexivity|].
    apply (includes_append_str1 _ LF).
Qed.

(** Whenever [toCsv] returns, the document is the comment line of the
    record, starting with [# status:], followed by a line feed and a
    table of at least two lines; no path returns a bare comment line or an
    empty document. *)
Theorem toCsv_document_shape (result : object) (document : string)
    (Hdoc : toCsv result = Return document) :
  exists meta rest table,
    generateMetadataRow result = Return meta /\
    meta = "# status:" ++ rest /\
    document = meta ++ str1 LF ++ table /\
    includes table LF = true.
Proof.
  destruct (toCsv_Return_metadata _ _ Hdoc) as (meta & table & Hm & Hd & Ht).
  destruct (generateMetadataRow_prefix _ _ Hm) as (rest & Hrest).
  exists meta, rest, table. auto.
Qed.

Lemma toCsv_document_shape_witness :
  exists meta rest table,
    generateMetadataRow (ok_result xy_data) = Return meta /\
    meta = "# status:" ++ rest /\
    join (str1 LF) [ok_meta; "x,y"; "1,"; ",2"] = meta ++ str1 LF ++ table /\
    includes table LF = true.
Proof.
  apply (toCsv_document_shape (ok_result xy_data)). reflexivity.
Defined.

(** ** Records with scalar metadata fields *)

(** On every record whose status, method, url, responseTime and error
    are not objects, [toCsv] returns; if building the table raised, what
    it returns is the comment line and the conversion-error table carrying
    the escaped message of the exception. *)
Theorem toCsv_total_on_scalar_metadata (result : object)
    (Hstatus : is_object (get result "status") = false)
    (Hmethod : is_object (get result "method") = false)
    (Hurl : is_object (get result "url") = false)
    (Htime : is_object (get result "responseTime") = false)
    (Herror : is_object (get result "error") = false) :
  exists meta document,
    generateMetadataRow result = Return meta /\
    toCsv result = Return document /\
    (forall e, toCsv_body result = Throw e ->
       document
       = join (str1 LF)
           [meta; "error,code,message";
            "CSV Conversion Error,CONVERSION_ERROR,"
            ++ escape_string (exn_message e)]).
Proof.
  destruct (toCsv_returns_on_scalar_metadata result Hstatus Hmethod Hurl Htime Herror)
    as (document & Hdoc).
  destruct (toCsv_Return_metadata result document Hdoc) as (meta & _ & Hmeta & _).
  exists meta, document. split; [exact Hmeta|]. split; [exact Hdoc|].
  intros e He. pose proof (toCsv_returns result meta Hmeta) as H.
  rewrite He in H. rewrite H in Hdoc. inversion Hdoc. reflexivity.
Qed.

Lemma toCsv_total_on_scalar_metadata_witness :
  exists meta document,
    generateMetadataRow (ok_result (Obj [("a", unprintable)])) = Return meta /\
    toCsv (ok_result (Obj [("a", unprintable)])) = Return document /\
    (forall e, toCsv_body (ok_result (Obj [("a", unprintable)])) = Throw e ->
       document
       = join (str1 LF)
           [meta; "error,code,message";
            "CSV Conversion Error,CONVERSION_ERROR,"
            ++ escape_string (exn_message e)]).
Proof.
  apply (toCsv_total_on_scalar_metadata (ok_result (Obj [("a", unprintable)])));
    reflexivity.
Defined.

(** ** Failures in CSV *)








(** ** The handler *)

Lemma buildContent_json (result : object) (format : value) :
  strict_eq_string format "csv" = false ->
  buildContent result format
  = Return {| text := JsonText (Obj result); isError := false |}.
Proof. intros H. unfold buildContent. rewrite H. reflexivity. Qed.

Lemma buildContent_flag (result : object) (format : value) (r : tool_result) :
  buildContent result format = Return r -> isError r = false.
Proof.
  unfold buildContent. destruct (strict_eq_string format "csv"); intros H.
  - apply bind_Return in H. destruct H as (s & _ & H).
    apply Return_inj in H. subst r. reflexivity.
  - apply Return_inj in H. subst r. reflexivity.
Qed.

Lemma attempt_json (w : world) (request : http_request)
    (method url requestData format : value) :
  strict_eq_string format "csv" = false ->
  attempt w request method url requestData format
  = match send w request with
    | Resolved reply =>
        ([NetworkCall request],
         Return {| text := JsonText (Obj (formatApiResponse
                                            (stamped_response w reply)
                                            method url requestData));
                   isError := false |})
    | Rejected error =>
        ([NetworkCall request; LogAppend RequestFailure],
         Return {| text := JsonText (Obj (formatErrorResponse
                                            error method url requestData));
                   isError := false |})
    end.
Proof.
  intros H. unfold attempt, handleErrorWithLogging, stamped_response.
  destruct (send w request); rewrite !(buildContent_json _ _ H); reflexivity.
Qed.

(** What one attempt leaves in the trace. *)
Lemma attempt_trace (w : world) (request : http_request)
    (method url requestData format : value) :
  (exists r, attempt w request method url requestData format
             = ([NetworkCall request], Return r) /\ isError r = false) \/
  (exists r, attempt w request method url requestData format
             = ([NetworkCall request; LogAppend RequestFailure], Return r)
             /\ isError r = false) \/
  (exists e, attempt w request method url requestData format
             = ([NetworkCall request; LogAppend RequestFailure], Throw e)).
Proof.
  unfold attempt, handleErrorWithLogging.
  destruct (send w request) as [reply|error].
  - destruct (buildContent (formatApiResponse _ _ _ _) format) as [r|e] eqn:B.
    + left. exists r. split; [reflexivity | exact (buildContent_flag _ _ _ B)].
    + right.
      destruct (buildContent (formatErrorResponse _ _ _ _) format) as [r'|e'] eqn:B'.
      * left. exists r'. split; [reflexivity | exact (buildContent_flag _ _ _ B')].
      * right. eauto.
  - right.
    destruct (buildContent (formatErrorResponse _ _ _ _) format) as [r'|e'] eqn:B'.
    + left. exists r'. split; [reflexivity | exact (buildContent_flag _ _ _ B')].
    + right. eauto.
Qed.

(** The switch either stops before the client is called or makes one
    attempt. *)
Lemma dispatch_cases (w : world) (name : string) (args : value) :
  (exists e, dispatch w name args = ([], Throw e)) \/
  (exists request method url requestData format,
     dispatch w name args = attempt w request method url requestData format).
Proof.
  unfold dispatch.
  destruct (name =? "api_get");
    [destruct (validateArgs args) as [a|e];
       [right; do 5 eexists; reflexivity | left; eauto]|].
  destruct (name =? "api_post");
    [destruct (validateArgs args) as [a|e];
       [right; do 5 eexists; reflexivity | left; eauto]|].
  destruct (name =? "api_put");
    [destruct (validateArgs args) as [a|e];
       [right; do 5 eexists; reflexivity | left; eauto]|].
  destruct (name =? "api_delete");
    [destruct (validateArgs args) as [a|e];
       [right; do 5 eexists; reflexivity | left; eauto]|].
  destruct (name =? "api_request"); [|left; eauto].
  destruct (validateArgs args) as [a|e]; [|left; eauto].
  destruct (toLowerCase (get a "method")) as [lower|e]; [|left; eauto].
  right. do 5 eexists. reflexivity.
Qed.


(** The answer of the outer [catch] for the exception [e]. *)
Lemma handler_of_Throw (w : world) (name : string) (args : value) (e : exn) :
  dispatch w name args = ([], Throw e) ->
  handler w name args
  = ([LogAppend HandlerError],
     {| text := JsonText (Obj [ ("success", Boolean false);
                                ("error", Str (exn_message e));
                                ("tool", Str name) ]);
        isError := true |}).
Proof. intros H. unfold handler. rewrite H. reflexivity. Qed.

(** A name that is none of the five operations is answered with the
    error flag and a message naming it, is logged once as a handler
    error, and never reaches the client, whatever the arguments are. *)
Theorem unknown_tool_answer (w : world) (name : string) (args : value)
    (Hname : ~ In name tool_names) :
  handler w name args
  = ([LogAppend HandlerError],
     {| text := JsonText (Obj [ ("success", Boolean false);
                                ("error", Str ("Unknown tool: " ++ name));
                                ("tool", Str name) ]);
        isError := true |}).
Proof.
  apply (handler_of_Throw w name args (Error ("Unknown tool: " ++ name))).
  unfold dispatch, tool_names in *.
  repeat match goal with
         | |- context [if name =? ?lit then _ else _] =>
             destruct (String.eqb_spec name lit) as [E|_];
             [exfalso; apply Hname; subst name; simpl; tauto|]
         end.
  reflexivity.
Qed.

Lemma unknown_tool_answer_witness :
  handler refusing_world "api_foo" (Obj [("url", sample_url)])
  = ([LogAppend HandlerError],
     {| text := JsonText (Obj [ ("success", Boolean false);
                                ("error", Str "Unknown tool: api_foo");
                                ("tool", Str "api_foo") ]);
        isError := true |}).
Proof.
  apply (unknown_tool_answer refusing_world "api_foo" (Obj [("url", sample_url)])).
  simpl. intuition discriminate.
Defined.

Lemma dispatch_validateArgs (w : world) (name : string) (args args' : value) :
  validateArgs args = validateArgs args' ->
  dispatch w name args = dispatch w name args'.
Proof. intros H. unfold dispatch. rewrite H. reflexivity. Qed.

Lemma dispatch_invalid (w : world) (name : string) (args : value) (e : exn) :
  In name tool_names ->
  validateArgs args = Throw e ->
  dispatch w name args = ([], Throw e).
Proof.
  intros Hname H. unfold dispatch. rewrite H.
  simpl in Hname.
  destruct Hname as [<-|[<-|[<-|[<-|[<-|[]]]]]]; reflexivity.
Qed.

(** Arguments of the five operations: a falsy value (undefined, null,
    0, false, the empty string) is taken for the empty object, so the
    invocation proceeds as if no field had been given; an array or any
    other truthy value that is not a plain object is refused with the
    error flag, a message telling its [typeof], and no call of the client. *)
Theorem handler_arguments (w : world) (name : string) (args : value)
    (Hname : In name tool_names) :
  (truthy args = false -> handler w name args = handler w name (Obj [])) /\
  (truthy args = true -> is_mapping args = false ->
   handler w name args
   = ([LogAppend HandlerError],
      {| text := JsonText (Obj [ ("success", Boolean false);
                                 ("error", Str ("Invalid arguments: expected object, got "
                                                ++ typeof args));
                                 ("tool", Str name) ]);
         isError := true |})).
Proof.
  split.
  - intros Hf. unfold handler.
    rewrite (dispatch_validateArgs w name args (Obj [])); [reflexivity|].
    unfold validateArgs, or_else. rewrite Hf. reflexivity.
  - intros Ht Hm.
    apply (handler_of_Throw w name args
             (Error ("Invalid arguments: expected object, got " ++ typeof args))).
    apply dispatch_invalid; [exact Hname|].
    unfold validateArgs, or_else. rewrite Ht.
    destruct args; try discriminate Hm; reflexivity.
Qed.

Lemma handler_arguments_witness :
  handler refusing_world "api_get" Null = handler refusing_world "api_get" (Obj []) /\
  handler refusing_world "api_post" (Arr [Str "http://h/p"])
  = ([LogAppend HandlerError],
     {| text := JsonText (Obj [ ("success", Boolean false);
                                ("error", Str "Invalid arguments: expected object, got object");
                                ("tool", Str "api_post") ]);
        isError := true |}).
Proof.
  split.
  - apply (handler_arguments refusing_world "api_get" Null); simpl; auto.
  - apply (handler_arguments refusing_world "api_post" (Arr [Str "http://h/p"]));
      simpl; auto.
Defined.

(** The generic operation with a method that is not a string (missing,
    null, a number, an object) stops at [toLowerCase]: error flag, one
    handler error entry, no call of the client. *)
Theorem api_request_method_not_string (w : world) (a : object)
    (Hmethod : forall m, get a "method" <> Str m) :
  fst (handler w "api_request" (Obj a)) = [LogAppend HandlerError] /\
  isError (snd (handler w "api_request" (Obj a))) = true /\
  exists reason,
    text (snd (handler w "api_request" (Obj a)))
    = JsonText (Obj [ ("success", Boolean false);
                      ("error", Str reason);
                      ("tool", Str "api_request") ]).
Proof.
  assert (He : exists e, dispatch w "api_request" (Obj a) = ([], Throw e)).
  { unfold dispatch. cbn [String.eqb Ascii.eqb Bool.eqb].
    rewrite validateArgs_object.
    destruct (get a "method") as [| |b|n|m|l|o|f] eqn:E; cbn [toLowerCase]; eauto.
    exfalso. exact (Hmethod m eq_refl). }
  destruct He as (e & He).
  rewrite (handler_of_Throw _ _ _ _ He). cbn. eauto.
Qed.

Lemma api_request_method_not_string_witness :
  fst (handler refusing_world "api_request"
         (Obj [("method", Num (Int 7)); ("url", sample_url)]))
  = [LogAppend HandlerError].
Proof.
  apply (api_request_method_not_string refusing_world
           [("method", Num (Int 7)); ("url", sample_url)]).
  intros m. discriminate.
Defined.

Lemma stamped_elapsed (w : world) (reply : http_reply)
    (method url requestData : value) :
  get (formatApiResponse (stamped_response w reply) method url requestData)
      "responseTime"
  = or_else (Num (Int (now_after w - now_before w))) (Str "N/A").
Proof.
  destruct (formatApiResponse_fields method url requestData
              (stamped_response w reply)) as (_ & _ & _ & _ & _ & _ & _ & H).
  exact H.
Qed.

(** With any format other than the string csv, each of the four
    operations named after their method calls the client once with the
    given url and answers without the error flag: on success the JSON of
    the success record, nothing logged, with the elapsed time taken from
    the two clock readings; on failure the JSON of the failure record and
    exactly one log entry.  The client method and the method label are
    get and GET, post and POST, put and PUT, delete and DELETE for the
    respective operation, and only post and put echo the data. *)
Theorem json_answer (w : world) (name : string) (a : object)
    (Hname : In name simple_tools)
    (Hformat : strict_eq_string (or_else (get a "format") (Str "json")) "csv"
               = false) :
  exists request label requestData,
    In (name, verb request, label) simple_tool_table /\
    request_url request = get a "url" /\
    (requestData = if existsb (String.eqb (verb request)) body_methods
                   then get a "data" else Null) /\
    handler w name (Obj a)
    = match send w request with
      | Resolved reply =>
          ([NetworkCall request],
           {| text := JsonText (Obj (formatApiResponse
                                       (stamped_response w reply)
                                       (Str label) (get a "url") requestData));
              isError := false |})
      | Rejected error =>
          ([NetworkCall request; LogAppend RequestFailure],
           {| text := JsonText (Obj (formatErrorResponse
                                       error (Str label) (get a "url") requestData));
              isError := false |})
      end /\
    forall reply,
      get (formatApiResponse (stamped_response w reply)
                             (Str label) (get a "url") requestData) "responseTime"
      = or_else (Num (Int (now_after w - now_before w))) (Str "N/A").
Proof.
  simpl in Hname.
  destruct Hname as [<-|[<-|[<-|[<-|[]]]]];
    unfold handler, dispatch; cbn [String.eqb Ascii.eqb Bool.eqb];
    rewrite validateArgs_object, (attempt_json _ _ _ _ _ _ Hformat).
  - exists (simple_request "get" (get a "url") Undefined
                           (get a "headers") (get a "params")), "GET", Null.
    split; [simpl; tauto|]. do 2 (split; [reflexivity|]).
    split; [destruct (send w _); reflexivity | intros reply; apply stamped_elapsed].
  - exists (simple_request "post" (get a "url") (get a "data")
                           (get a "headers") (get a "params")), "POST", (get a "data").
    split; [simpl; tauto|]. do 2 (split; [reflexivity|]).
    split; [destruct (send w _); reflexivity | intros reply; apply stamped_elapsed].
  - exists (simple_request "put" (get a "url") (get a "data")
                           (get a "headers") (get a "params")), "PUT", (get a "data").
    split; [simpl; tauto|]. do 2 (split; [reflexivity|]).
    split; [destruct (send w _); reflexivity | intros reply; apply stamped_elapsed].
  - exists (simple_request "delete" (get a "url") Undefined
                           (get a "headers") (get a "params")), "DELETE", Null.
    split; [simpl; tauto|]. do 2 (split; [reflexivity|]).
    split; [destruct (send w _); reflexivity | intros reply; apply stamped_elapsed].
Qed.

Lemma json_answer_witness :
  exists request label requestData,
    In ("api_post", verb request, label) simple_tool_table /\
    request_url request = sample_url /\
    (requestData = if existsb (String.eqb (verb request)) body_methods
                   then Num (Int 5) else Null) /\
    handler refusing_world "api_post"
            (Obj [("url", sample_url); ("data", Num (Int 5)); ("format", Str "xml")])
    = match send refusing_world request with
      | Resolved reply =>
          ([NetworkCall request],
           {| text := JsonText (Obj (formatApiResponse
                                       (stamped_response refusing_world reply)
                                       (Str label) sample_url requestData));
              isError := false |})
      | Rejected error =>
          ([NetworkCall request; LogAppend RequestFailure],
           {| text := JsonText (Obj (formatErrorResponse
                                       error (Str label) sample_url requestData));
              isError := false |})
      end /\
    forall reply,
      get (formatApiResponse (stamped_response refusing_world reply)
                             (Str label) sample_url requestData) "responseTime"
      = or_else (Num (Int (now_after refusing_world - now_before refusing_world)))
                (Str "N/A").
Proof.
  apply (json_answer refusing_world "api_post"
           [("url", sample_url); ("data", Num (Int 5)); ("format", Str "xml")]).
  - simpl. auto.
  - reflexivity.
Defined.

(** *** The generic operation *)

Lemma upper_lower_ascii (c : ascii) :
  upper_ascii (lower_ascii c) = upper_ascii c.
Proof. destruct c as [[] [] [] [] [] [] [] []]; reflexivity. Qed.

Lemma upper_lower (s : string) :
  map_string upper_ascii (map_string lower_ascii s) = map_string upper_ascii s.
Proof.
  induction s as [|c s IH]; simpl; [reflexivity|].
  rewrite upper_lower_ascii, IH. reflexivity.
Qed.

(** The generic operation reads a method of ASCII characters without
    regard to the case of its letters: two invocations whose methods are
    ASCII strings with the same lower-case form and whose other arguments
    agree have the same trace and the same answer. *)
Theorem api_request_case_insensitive (w : world) (a1 a2 : object) (m1 m2 : string)
    (Hm1 : get a1 "method" = Str m1) (Hm2 : get a2 "method" = Str m2)
    (Hascii1 : is_ascii_string m1 = true) (Hascii2 : is_ascii_string m2 = true)
    (Hcase : map_string lower_ascii m1 = map_string lower_ascii m2)
    (Hurl : get a1 "url" = get a2 "url")
    (Hdata : get a1 "data" = get a2 "data")
    (Hheaders : get a1 "headers" = get a2 "headers")
    (Hparams : get a1 "params" = get a2 "params")
    (Hformat : get a1 "format" = get a2 "format") :
  handler w "api_request" (Obj a1) = handler w "api_request" (Obj a2).
Proof.
  unfold handler, dispatch. cbn [String.eqb Ascii.eqb Bool.eqb].
  rewrite !validateArgs_object, Hm1, Hm2, Hurl, Hdata, Hheaders, Hparams, Hformat.
  cbn [toLowerCase toUpperCase].
  rewrite <- (upper_lower m1), <- (upper_lower m2), Hcase. reflexivity.
Qed.

Lemma api_request_case_insensitive_witness :
  handler refusing_world "api_request" (Obj [("method", Str "Get"); ("url", sample_url)])
  = handler refusing_world "api_request" (Obj [("url", sample_url); ("method", Str "GET")]).
Proof.
  apply (api_request_case_insensitive refusing_world
           [("method", Str "Get"); ("url", sample_url)]
           [("url", sample_url); ("method", Str "GET")] "Get" "GET");
    reflexivity.
Defined.



(** *** Answers in CSV *)

Lemma formatApiResponse_scalar_metadata (r : response)
    (method url requestData : value) :
  is_object (status r) = false ->
  is_object method = false ->
  is_object url = false ->
  exists document,
    toCsv (formatApiResponse r method url requestData) = Return document.
Proof.
  intros Hs Hm Hu. apply toCsv_returns_on_scalar_metadata;
    unfold formatApiResponse; destruct (truthy requestData); cbn;
    try assumption; try reflexivity;
    unfold or_else; destruct (truthy (Num (elapsed r))); reflexivity.
Qed.

Lemma formatErrorResponse_scalar_metadata (e : failure)
    (method url requestData : value) :
  is_object (message e) = false ->
  match error_response e with
  | Some r => is_object (status r) = false
  | None => True
  end ->
  is_object method = false ->
  is_object url = false ->
  exists document,
    toCsv (formatErrorResponse e method url requestData) = Return document.
Proof.
  intros He Hs Hm Hu. apply toCsv_returns_on_scalar_metadata;
    unfold formatErrorResponse; destruct (error_response e);
    destruct (truthy requestData); cbn; try assumption; reflexivity.
Qed.

Lemma document_prefix (result : object) (document : string) :
  toCsv result = Return document ->
  exists rest, document = "# status:" ++ rest.
Proof.
  intros H. destruct (toCsv_Return_metadata _ _ H) as (meta & table & Hm & -> & _).
  destruct (generateMetadataRow_prefix _ _ Hm) as (rest & ->).
  exists (rest ++ str1 LF ++ table). reflexivity.
Qed.

Lemma attempt_csv (w : world) (request : http_request) (label u : string)
    (requestData : value) :
  match send w request with
  | Resolved reply =>
      is_object (reply_status reply) = false ->
      exists document,
        toCsv (formatApiResponse (stamped_response w reply)
                                 (Str label) (Str u) requestData)
        = Return document /\
        attempt w request (Str label) (Str u) requestData (Str "csv")
        = ([NetworkCall request],
           Return {| text := CsvText document; isError := false |})
  | Rejected error =>
      is_object (message error) = false ->
      match error_response error with
      | Some r => is_object (status r) = false
      | None => True
      end ->
      exists document,
        toCsv (formatErrorResponse error (Str label) (Str u) requestData)
        = Return document /\
        attempt w request (Str label) (Str u) requestData (Str "csv")
        = ([NetworkCall request; LogAppend RequestFailure],
           Return {| text := CsvText document; isError := false |})
  end.
Proof.
  unfold attempt, handleErrorWithLogging, buildContent.
  cbn [strict_eq_string String.eqb Ascii.eqb Bool.eqb].
  destruct (send w request) as [reply|error].
  - intros Hs.
    destruct (formatApiResponse_scalar_metadata (stamped_response w reply)
                (Str label) (Str u) requestData Hs eq_refl eq_refl) as (doc & Hdoc).
    exists doc. split; [exact Hdoc|].
    unfold stamped_response in Hdoc. rewrite Hdoc. reflexivity.
  - intros He Hs.
    destruct (formatErrorResponse_scalar_metadata error
                (Str label) (Str u) requestData He Hs eq_refl eq_refl) as (doc & Hdoc).
    exists doc. split; [exact Hdoc|]. rewrite Hdoc. reflexivity.
Qed.

(** With format csv and a string as url, each of the four operations
    named after their method answers with a CSV document that starts with
    the comment line, without the error flag, whenever the status of the
    reply (or of the response carried by the failure) and the message of
    the failure are not objects: one call of the client, nothing logged
    on success, one log entry on failure, never the handler error. *)
Theorem csv_answer (w : world) (name : string) (a : object) (u : string)
    (Hname : In name simple_tools)
    (Hurl : get a "url" = Str u)
    (Hformat : get a "format" = Str "csv") :
  exists request,
    request_url request = Str u /\
    match send w request with
    | Resolved reply =>
        is_object (reply_status reply) = false ->
        exists rest,
          handler w name (Obj a)
          = ([NetworkCall request],
             {| text := CsvText ("# status:" ++ rest); isError := false |})
    | Rejected error =>
        is_object (message error) = false ->
        match error_response error with
        | Some r => is_object (status r) = false
        | None => True
        end ->
        exists rest,
          handler w name (Obj a)
          = ([NetworkCall request; LogAppend RequestFailure],
             {| text := CsvText ("# status:" ++ rest); isError := false |})
    end.
Proof.
  assert (Hgen : forall request label requestData,
             match send w request with
             | Resolved reply =>
                 is_object (reply_status reply) = false ->
                 exists rest,
                   attempt w request (Str label) (Str u) requestData (Str "csv")
                   = ([NetworkCall request],
                      Return {| text := CsvText ("# status:" ++ rest);
                                isError := false |})
             | Rejected error =>
                 is_object (message error) = false ->
                 match error_response error with
                 | Some r => is_object (status r) = false
                 | None => True
                 end ->
                 exists rest,
                   attempt w request (Str label) (Str u) requestData (Str "csv")
                   = ([NetworkCall request; LogAppend RequestFailure],
                      Return {| text := CsvText ("# status:" ++ rest);
                                isError := false |})
             end).
  { intros request label requestData.
    pose proof (attempt_csv w request label u requestData) as H.
    destruct (send w request) as [reply|error].
    - intros Hs. destruct (H Hs) as (doc & Hdoc & Hatt).
      destruct (document_prefix _ _ Hdoc) as (rest & ->). eauto.
    - intros He Hs. destruct (H He Hs) as (doc & Hdoc & Hatt).
      destruct (document_prefix _ _ Hdoc) as (rest & ->). eauto. }
  assert (Hfmt : or_else (get a "format") (Str "json") = Str "csv")
    by (rewrite Hformat; reflexivity).
  simpl in Hname.
  destruct Hname as [<-|[<-|[<-|[<-|[]]]]];
    unfold handler, dispatch; cbn [String.eqb Ascii.eqb Bool.eqb];
    rewrite validateArgs_object, Hurl, Hfmt;
    match goal with
    | |- context [attempt w ?rq (Str ?label) (Str u) ?rd (Str "csv")] =>
        exists rq; split; [reflexivity|];
        pose proof (Hgen rq label rd) as H;
        destruct (send w rq) as [reply|error]
    end;
    [ intros Hs; destruct (H Hs) as (rest & ->); exists rest; reflexivity
    | intros He Hs; destruct (H He Hs) as (rest & ->); exists rest; reflexivity
    | intros Hs; destruct (H Hs) as (rest & ->); exists rest; reflexivity
    | intros He Hs; destruct (H He Hs) as (rest & ->); exists rest; reflexivity
    | intros Hs; destruct (H Hs) as (rest & ->); exists rest; reflexivity
    | intros He Hs; destruct (H He Hs) as (rest & ->); exists rest; reflexivity
    | intros Hs; destruct (H Hs) as (rest & ->); exists rest; reflexivity
    | intros He Hs; destruct (H He Hs) as (rest & ->); exists rest; reflexivity ].
Qed.

Lemma csv_answer_witness :
  exists request,
    request_url request = sample_url /\
    match send (answering_world xy_data) request with
    | Resolved reply =>
        is_object (reply_status reply) = false ->
        exists rest,
          handler (answering_world xy_data) "api_get"
                  (Obj [("url", sample_url); ("format", Str "csv")])
          = ([NetworkCall request],
             {| text := CsvText ("# status:" ++ rest); isError := false |})
    | Rejected error =>
        is_object (message error) = false ->
        match error_response error with
        | Some r => is_object (status r) = false
        | None => True
        end ->
        exists rest,
          handler (answering_world xy_data) "api_get"
                  (Obj [("url", sample_url); ("format", Str "csv")])
          = ([NetworkCall request; LogAppend RequestFailure],
             {| text := CsvText ("# status:" ++ rest); isError := false |})
    end.
Proof.
  apply (csv_answer (answering_world xy_data) "api_get"
           [("url", sample_url); ("format", Str "csv")] "http://h/p").
  - simpl. auto.
  - reflexivity.
  - reflexivity.
Defined.

(** *** The answers with the error flag *)

Lemma generateMetadataRow_Throw (result : object) (e : exn) :
  generateMetadataRow result = Throw e -> e = TypeError CANNOT_CONVERT.
Proof.
  unfold generateMetadataRow.
  destruct (ToString (or_else (get result "status") NA)) as [s|x] eqn:Es;
    [|intros H; inversion H; subst; exact (ToString_Throw _ _ Es)].
  destruct (ToString (or_else (get result "method") NA)) as [m|x] eqn:Em;
    [|intros H; inversion H; subst; exact (ToString_Throw _ _ Em)].
  destruct (ToString (or_else (get result "url") NA)) as [u|x] eqn:Eu;
    [|intros H; inversion H; subst; exact (ToString_Throw _ _ Eu)].
  destruct (ToString (or_else (get result "responseTime") NA)) as [t|x] eqn:Et;
    [|intros H; inversion H; subst; exact (ToString_Throw _ _ Et)].
  cbn [bind]. destruct (truthy (get result "error")); [|discriminate].
  destruct (ToString (get result "error")) as [er|x] eqn:Ee; [discriminate|].
  intros H. inversion H; subst. exact (ToString_Throw _ _ Ee).
Qed.

Lemma toCsv_Throw (result : object) (e : exn) :
  toCsv result = Throw e -> e = TypeError CANNOT_CONVERT.
Proof.
  unfold toCsv, try_catch.
  destruct (toCsv_body result) as [s|e0]; [discriminate|].
  unfold fallbackCsv.
  destruct (generateMetadataRow result) as [meta|x] eqn:Em.
  - cbn [bind]. rewrite escapeCsvValue_Str. discriminate.
  - intros H. inversion H; subst. exact (generateMetadataRow_Throw _ _ Em).
Qed.

Lemma buildContent_Throw (result : object) (format : value) (e : exn) :
  buildContent result format = Throw e -> e = TypeError CANNOT_CONVERT.
Proof.
  unfold buildContent. destruct (strict_eq_string format "csv"); [|discriminate].
  destruct (toCsv result) as [s|x] eqn:E; [discriminate|].
  intros H. inversion H; subst. exact (toCsv_Throw _ _ E).
Qed.

Lemma attempt_Throw (w : world) (request : http_request)
    (method url requestData format : value) (events : list event) (e : exn) :
  attempt w request method url requestData format = (events, Throw e) ->
  e = TypeError CANNOT_CONVERT.
Proof.
  unfold attempt, handleErrorWithLogging.
  destruct (send w request) as [reply|error].
  - destruct (buildContent (formatApiResponse _ _ _ _) format) as [r|x];
      [discriminate|].
    intros H. inversion H as [[He Hb]]. exact (buildContent_Throw _ _ _ Hb).
  - intros H. inversion H as [[He Hb]]. exact (buildContent_Throw _ _ _ Hb).
Qed.

Lemma validateArgs_Throw (args : value) (e : exn) :
  validateArgs args = Throw e ->
  e = Error ("Invalid arguments: expected object, got " ++ typeof args).
Proof.
  unfold validateArgs, or_else. destruct (truthy args) eqn:Ht.
  - destruct args; intros H; inversion H; reflexivity.
  - discriminate.
Qed.

Lemma toLowerCase_Throw (v : value) (e : exn) :
  toLowerCase v = Throw e ->
  In (exn_message e)
     [ "Cannot read properties of undefined (reading 'toLowerCase')";
       "Cannot read properties of null (reading 'toLowerCase')";
       "method.toLowerCase is not a function" ].
Proof.
  destruct v; intros H; inversion H; simpl; auto.
Qed.

Lemma dispatch_Throw (w : world) (name : string) (args : value)
    (events : list event) (e : exn) :
  dispatch w name args = (events, Throw e) ->
  In (exn_message e) (handler_reasons name args).
Proof.
  assert (Hv : forall x, validateArgs args = Throw x ->
                         In (exn_message x) (handler_reasons name args)).
  { intros x Hx. rewrite (validateArgs_Throw _ _ Hx). simpl. auto. }
  assert (Ha : forall rq m u d f,
             attempt w rq m u d f = (events, Throw e) ->
             In (exn_message e) (handler_reasons name args)).
  { intros rq m u d f H. rewrite (attempt_Throw _ _ _ _ _ _ _ _ H).
    simpl. tauto. }
  unfold dispatch.
  destruct (name =? "api_get");
    [destruct (validateArgs args) as [a|x] eqn:V;
       [apply Ha | intros H; inversion H; subst; exact (Hv _ eq_refl)]|].
  destruct (name =? "api_post");
    [destruct (validateArgs args) as [a|x] eqn:V;
       [apply Ha | intros H; inversion H; subst; exact (Hv _ eq_refl)]|].
  destruct (name =? "api_put");
    [destruct (validateArgs args) as [a|x] eqn:V;
       [apply Ha | intros H; inversion H; subst; exact (Hv _ eq_refl)]|].
  destruct (name =? "api_delete");
    [destruct (validateArgs args) as [a|x] eqn:V;
       [apply Ha | intros H; inversion H; subst; exact (Hv _ eq_refl)]|].
  destruct (name =? "api_request");
    [|intros H; inversion H; subst; simpl; auto].
  destruct (validateArgs args) as [a|x] eqn:V;
    [|intros H; inversion H; subst; exact (Hv _ eq_refl)].
  destruct (toLowerCase (get a "method")) as [lower|x] eqn:L; [apply Ha|].
  intros H. inversion H; subst.
  pose proof (toLowerCase_Throw _ _ L) as Hl. simpl in Hl. simpl. tauto.
Qed.

(** An answer with the error flag always is the JSON of the three
    fields success (false), error and tool, and its error text is one of
    six: the unknown tool, the invalid arguments, the three failures of
    [toLowerCase] on a method that is not a string, or the failed
    conversion of an object to a string inside the CSV projection. *)
Theorem handler_error_answers (w : world) (name : string) (args : value)
    (Hflag : isError (snd (handler w name args)) = true) :
  exists reason,
    In reason (handler_reasons name args) /\
    text (snd (handler w name args))
    = JsonText (Obj [ ("success", Boolean false);
                      ("error", Str reason);
                      ("tool", Str name) ]).
Proof.
  unfold handler in *.
  destruct (dispatch w name args) as [events [r|e]] eqn:D.
  - exfalso. cbn in Hflag.
    destruct (dispatch_cases w name args) as [(x & Hx)|(rq & m & u & d & f & Hx)];
      rewrite Hx in D; [discriminate|].
    destruct (attempt_trace w rq m u d f)
      as [(r' & Hr & Hf)|[(r' & Hr & Hf)|(x & Hr)]];
      rewrite Hr in D; inversion D; subst; congruence.
  - exists (exn_message e). split; [exact (dispatch_Throw _ _ _ _ _ D) | reflexivity].
Qed.

Lemma handler_error_answers_witness :
  exists reason,
    In reason (handler_reasons "api_get"
                 (Obj [("url", unprintable); ("format", Str "csv")])) /\
    text (snd (handler refusing_world "api_get"
                 (Obj [("url", unprintable); ("format", Str "csv")])))
    = JsonText (Obj [ ("success", Boolean false);
                      ("error", Str reason);
                      ("tool", Str "api_get") ]).
Proof.
  apply (handler_error_answers refusing_world "api_get"
           (Obj [("url", unprintable); ("format", Str "csv")])).
  reflexivity.
Defined.

(** ** When [toCsv] raises *)

(** [toCsv] raises exactly when the comment line of the record cannot
    be built, and then with the exception of the comment line; every
    other exception is turned into a document. *)
Theorem toCsv_raises_iff (result : object) (e : exn) :
  toCsv result = Throw e <-> generateMetadataRow result = Throw e.
Proof.
  split; [|apply toCsv_metadata_Throw].
  unfold toCsv, try_catch.
  destruct (toCsv_body result) as [s|e0]; [discriminate|].
  unfold fallbackCsv.
  destruct (generateMetadataRow result) as [meta|x]; [|exact (fun H => H)].
  cbn [bind]. rewrite escapeCsvValue_Str. discriminate.
Qed.
